(** * pizzaApp-FastAPI: the request handlers of [src/main.py]

    A shallow embedding of the FastAPI application: the relational store
    as finite maps and row lists, the handlers as computations in a
    state-and-exception monad over that store.  The handler bodies follow
    [src/main.py] line by line; the modules it imports ([CRUD], [models],
    [schemas], [deps], [utils]) are modelled from the specification and
    marked as such. *)

From stdpp Require Import gmap strings list fin_maps pretty.

Local Open Scope Z_scope.
Local Open Scope string_scope.
Local Open Scope list_scope.

(** ** Data model

    One module per entity, so that the fields keep the names they have in
    the sources. *)

(** Modelled from the spec: [models.User] ([models.py] is not part of the
    sources).  The handlers read the keys [password] and [email]. *)
Module User.
Record t := mk {
  username : string;
  email : string;
  password : string;          (* the stored hash *)
  permission_level : Z
}.
End User.

(** Modelled from the spec: [schemas.UserCreate], the signup body. *)
Module UserCreate.
Record t := mk {
  username : string;
  email : string;
  password : string;          (* plaintext *)
  permission_level : Z
}.
End UserCreate.

(** Modelled from the spec: [schemas.User], the signup response model,
    which carries no password. *)
Module UserSchema.
Record t := mk {
  username : string;
  email : string;
  permission_level : Z
}.
End UserSchema.

(** Modelled from the spec: [models.PizzaIngredientAssociation], the join
    row keyed by the pair of ids. *)
Module Association.
Record t := mk {
  pizza_id : Z;
  ingredient_id : Z
}.
End Association.

(** Modelled from the spec: a row of the pizza table; the primary key is
    the key of the table.  [ingredient_number] is the stored column. *)
Module PizzaRow.
Record t := mk {
  name : string;
  price : Z;
  is_active : bool;
  ingredient_number : Z
}.
End PizzaRow.

(** Modelled from the spec: a loaded [models.Pizza] object.  [ingredients]
    is the relationship to the association rows of this pizza;
    [ingredient_number] is the attribute [show_pizzas] assigns. *)
Module Pizza.
Record t := mk {
  id : Z;
  name : string;
  price : Z;
  is_active : bool;
  ingredient_number : Z;
  ingredients : list Association.t
}.
End Pizza.

(** Modelled from the spec: [schemas.PizzaCreate]. *)
Module PizzaCreate.
Record t := mk {
  name : string;
  price : Z;
  is_active : bool
}.
End PizzaCreate.

(** Modelled from the spec: [schemas.PizzaList], the element of the
    pizza-list response. *)
Module PizzaList.
Record t := mk {
  id : Z;
  name : string;
  price : Z;
  is_active : bool;
  ingredient_number : Z
}.
End PizzaList.

(** Modelled from the spec: [schemas.IngredientBase], which is also the
    shape of a row of the ingredient table. *)
Module IngredientBase.
Record t := mk {
  name : string;
  category : string
}.
End IngredientBase.

(** Modelled from the spec: a loaded [models.Ingredient] object; [pizzas]
    is the back-reference to the association rows naming it. *)
Module Ingredient.
Record t := mk {
  id : Z;
  name : string;
  category : string;
  pizzas : list Association.t
}.
End Ingredient.

#[global] Instance Association_eq_dec : EqDecision Association.t.
Proof. solve_decision. Defined.

(** The persistent store behind a [Session]. *)
Record DB := mkDB {
  users : list User.t;
  pizzas : gmap Z PizzaRow.t;
  ingredient_table : gmap Z IngredientBase.t;
  associations : list Association.t
}.

(** ** Exceptions and the handler monad *)

Inductive exn :=
| HTTPException (status_code : Z) (detail : string)
    (* raised by the handlers of main.py *)
| Unauthorized
    (* Modelled from the spec: what deps.get_current_user fails with *)
| AttributeError (detail : string).
    (* Python's own: an attribute read on None *)

Inductive outcome (A : Type) :=
| Return (a : A)
| Raise (e : exn).
Arguments Return {A} a.
Arguments Raise {A} e.

(** A handler runs against the store and either returns or raises. *)
Definition M (A : Type) : Type := DB → outcome A * DB.

#[global] Instance M_ret : MRet M := λ A a db, (Return a, db).
#[global] Instance M_bind : MBind M := λ A B k m db,
  match m db with
  | (Return a, db') => k a db'
  | (Raise e, db') => (Raise e, db')
  end.

Definition raise {A} (e : exn) : M A := λ db, (Raise e, db).
Definition query {A} (f : DB → A) : M A := λ db, (Return (f db), db).
Definition commit (f : DB → DB) : M () := λ db, (Return (), f db).

(** Column-wise updates of the store. *)
Definition set_users (f : list User.t → list User.t) (db : DB) : DB :=
  {| users := f (users db); pizzas := pizzas db;
     ingredient_table := ingredient_table db; associations := associations db |}.
Definition set_pizzas (f : gmap Z PizzaRow.t → gmap Z PizzaRow.t) (db : DB) : DB :=
  {| users := users db; pizzas := f (pizzas db);
     ingredient_table := ingredient_table db; associations := associations db |}.
Definition set_ingredient_table
    (f : gmap Z IngredientBase.t → gmap Z IngredientBase.t) (db : DB) : DB :=
  {| users := users db; pizzas := pizzas db;
     ingredient_table := f (ingredient_table db); associations := associations db |}.
Definition set_associations
    (f : list Association.t → list Association.t) (db : DB) : DB :=
  {| users := users db; pizzas := pizzas db;
     ingredient_table := ingredient_table db; associations := f (associations db) |}.

(** ** The helpers of [utils.py] and the clock, taken as an interface *)

(** Modelled from the spec: the claims of a decoded token, its subject and
    its expiry. *)
Record TokenPayload := mkTokenPayload {
  sub : string;
  exp : Z
}.

Class Utils := {
  get_hashed_password : string → string;
  verify_password : string → string → bool;
  create_access_token : string → string;
  create_refresh_token : string → string;
  (* signature check and parsing of a presented access token *)
  jwt_decode : string → option TokenPayload;
  (* the clock reading while the request is served *)
  utcnow : Z
}.

(** ** The store access layer *)

Module CRUD.

(** Modelled from the spec: [CRUD.get_user_by_username], the first row
    with that username, or None. *)
Definition get_user_by_username (username : string) : M (option User.t) :=
  query (λ db, head (filter (λ u, User.username u = username) (users db))).

(** Modelled from the spec: the lookup of a token's subject; [login]
    issues tokens for the user's email. *)
Definition get_user_by_email (email : string) : M (option User.t) :=
  query (λ db, head (filter (λ u, User.email u = email) (users db))).

(** Modelled from the spec: [CRUD.create_user] builds the record from the
    signup data, storing the hash of the password.  Its argument is what
    the handler passes; reading the signup fields off Python's None raises
    AttributeError. *)
Definition create_user {U : Utils} (user : option UserCreate.t) : M User.t :=
  match user with
  | None => raise (AttributeError "'NoneType' object has no attribute 'username'")
  | Some data =>
      let db_user := User.mk (UserCreate.username data) (UserCreate.email data)
                       (get_hashed_password (UserCreate.password data))
                       (UserCreate.permission_level data) in
      _ ← commit (set_users (λ l, l ++ [db_user]));
      mret db_user
  end.

(** The association rows of one pizza, and of one ingredient. *)
Definition rows_of_pizza (db : DB) (pizza_id : Z) : list Association.t :=
  filter (λ a, Association.pizza_id a = pizza_id) (associations db).
Definition rows_of_ingredient (db : DB) (ingredient_id : Z) : list Association.t :=
  filter (λ a, Association.ingredient_id a = ingredient_id) (associations db).

(** Loading a row into an object, with its relationship. *)
Definition load_pizza (db : DB) (pizza_id : Z) (r : PizzaRow.t) : Pizza.t :=
  Pizza.mk pizza_id (PizzaRow.name r) (PizzaRow.price r) (PizzaRow.is_active r)
    (PizzaRow.ingredient_number r) (rows_of_pizza db pizza_id).
Definition load_ingredient (db : DB) (ingredient_id : Z) (r : IngredientBase.t)
    : Ingredient.t :=
  Ingredient.mk ingredient_id (IngredientBase.name r) (IngredientBase.category r)
    (rows_of_ingredient db ingredient_id).

(** The next primary key of a table. *)
Definition next_id {A} (t : gmap Z A) : Z :=
  1 + map_fold (λ k _ acc, Z.max k acc) 0 t.

(** Modelled from the spec: [CRUD.get_pizza_list]; the flag true returns
    all pizzas, false only the active ones. *)
Definition get_pizza_list (get_all : bool) : M (list Pizza.t) :=
  query (λ db,
    let all := (λ kr, load_pizza db kr.1 kr.2) <$> map_to_list (pizzas db) in
    if get_all then all else filter (λ p, Pizza.is_active p = true) all).

(** Modelled from the spec: [CRUD.get_pizza], by key. *)
Definition get_pizza (pizza_id : Z) : M (option Pizza.t) :=
  query (λ db, load_pizza db pizza_id <$> pizzas db !! pizza_id).

(** Modelled from the spec: [CRUD.create_pizza]. *)
Definition create_pizza (new_pizza : PizzaCreate.t) : M Pizza.t :=
  λ db,
    let pizza_id := next_id (pizzas db) in
    let r := PizzaRow.mk (PizzaCreate.name new_pizza) (PizzaCreate.price new_pizza)
               (PizzaCreate.is_active new_pizza) 0 in
    let db' := set_pizzas (insert pizza_id r) db in
    (Return (load_pizza db' pizza_id r), db').

(** Modelled from the spec: [CRUD.change_pizza], the partial update; a
    supplied field changes, None leaves the field as it is. *)
Definition change_pizza (pizza : Pizza.t)
    (name : option string) (price : option Z) (is_active : option bool)
    : M Pizza.t :=
  λ db,
    let r := PizzaRow.mk (default (Pizza.name pizza) name)
               (default (Pizza.price pizza) price)
               (default (Pizza.is_active pizza) is_active)
               (Pizza.ingredient_number pizza) in
    let db' := set_pizzas (insert (Pizza.id pizza) r) db in
    (Return (load_pizza db' (Pizza.id pizza) r), db').

(** Modelled from the spec: [CRUD.get_ingredient], by key. *)
Definition get_ingredient (ingredient_id : Z) : M (option Ingredient.t) :=
  query (λ db, load_ingredient db ingredient_id <$> ingredient_table db !! ingredient_id).

(** Modelled from the spec: [CRUD.create_ingredient]. *)
Definition create_ingredient (new_ingredient : IngredientBase.t) : M Ingredient.t :=
  λ db,
    let ingredient_id := next_id (ingredient_table db) in
    let db' := set_ingredient_table (insert ingredient_id new_ingredient) db in
    (Return (load_ingredient db' ingredient_id new_ingredient), db').

(** Modelled from the spec: [CRUD.change_ingredient], the partial update
    of name and category. *)
Definition change_ingredient (ingredient : Ingredient.t)
    (name category : option string) : M Ingredient.t :=
  λ db,
    let r := IngredientBase.mk (default (Ingredient.name ingredient) name)
               (default (Ingredient.category ingredient) category) in
    let db' := set_ingredient_table (insert (Ingredient.id ingredient) r) db in
    (Return (load_ingredient db' (Ingredient.id ingredient) r), db').

(** Modelled from the spec: [CRUD.delete_ingredient], the conditional
    deletion; it reports False, and deletes nothing, while an association
    references the ingredient. *)
Definition delete_ingredient (ingredient : Ingredient.t) : M bool :=
  match Ingredient.pizzas ingredient with
  | [] => _ ← commit (set_ingredient_table (delete (Ingredient.id ingredient)));
          mret true
  | _ :: _ => mret false
  end.

(** Modelled from the spec: [CRUD.get_pizza_ing_association], the lookup
    by the exact pair. *)
Definition get_pizza_ing_association (pizza_id ingredient_id : Z)
    : M (option Association.t) :=
  query (λ db,
    head (filter (λ a, Association.pizza_id a = pizza_id ∧
                       Association.ingredient_id a = ingredient_id)
                 (associations db))).

(** Modelled from the spec: [CRUD.add_pizza_ing_association]. *)
Definition add_pizza_ing_association (pizza_id ingredient_id : Z) : M Association.t :=
  let a := Association.mk pizza_id ingredient_id in
  _ ← commit (set_associations (λ l, l ++ [a]));
  mret a.

(** Modelled from the spec: [CRUD.delete_pizza_ing_association], the
    deletion of the row with the key of [association]. *)
Definition delete_pizza_ing_association (association : Association.t) : M () :=
  commit (set_associations (filter (λ a, a ≠ association))).

End CRUD.

(** ** Identity resolution *)

(** Modelled from the spec: [deps.get_current_user].  It validates the
    token's signature and expiry, extracts the subject and looks the user
    up; it fails with Unauthorized when no valid token is presented, when
    the token has expired, or when the subject is unknown. *)
Definition get_current_user {U : Utils} (token : option string) : M User.t :=
  match token ≫= jwt_decode with
  | None => raise Unauthorized
  | Some payload =>
      if bool_decide (exp payload < utcnow) then raise Unauthorized
      else
        user ← CRUD.get_user_by_email (sub payload);
        match user with
        | None => raise Unauthorized
        | Some u => mret u
        end
  end.

(** ** The handlers of [main.py] *)

(** The JSON objects the handlers build. *)
Record TokenSchema := mkTokenSchema {
  access_token : string;
  refresh_token : string
}.
Record StatusDict := mkStatusDict {
  status : string;
  detail : string
}.

(** main.py, lines 35-43. *)
Definition home : M (string * string) := mret ("Welcome", "to the pizza app").

(** main.py, lines 46-52.  Line 51 hands the lookup result [user] to
    [CRUD.create_user], not [data]; in that branch [user] is None, which is
    the argument written here. *)
Definition create_user {U : Utils} (data : UserCreate.t) : M User.t :=
  user ← CRUD.get_user_by_username (UserCreate.username data);
  match user with
  | None => CRUD.create_user None
  | Some _ => raise (HTTPException 400 "The username already exists")
  end.

(** main.py, lines 54-67. *)
Definition login {U : Utils} (username password : string) : M TokenSchema :=
  user ← CRUD.get_user_by_username username;
  match user with
  | None => raise (HTTPException 400 "Incorrect username or password")
  | Some user =>
      let hashed_password := User.password user in
      if verify_password password hashed_password then
        mret {| access_token := create_access_token (User.email user);
                refresh_token := create_refresh_token (User.email user) |}
      else raise (HTTPException 400 "Incorrect username or password")
  end.

(** main.py, lines 74-96. *)
Definition show_pizzas (user : User.t) : M (list Pizza.t) :=
  let get_all := true in
  pizza_list ← CRUD.get_pizza_list get_all;
  mret ((λ pizza,
           Pizza.mk (Pizza.id pizza) (Pizza.name pizza) (Pizza.price pizza)
             (Pizza.is_active pizza)
             (Z.of_nat (length (Pizza.ingredients pizza)))
             (Pizza.ingredients pizza)) <$> pizza_list).

(** main.py, lines 98-115. *)
Definition show_pizza_details (pizza_id : Z) : M Pizza.t :=
  pizza_detail ← CRUD.get_pizza pizza_id;
  match pizza_detail with
  | None => raise (HTTPException 404 "Pizza not found")
  | Some pizza_detail => mret pizza_detail
  end.

(** main.py, lines 117-132. *)
Definition create_pizza (new_pizza : PizzaCreate.t) (user : User.t) : M Pizza.t :=
  CRUD.create_pizza new_pizza.

(** main.py, lines 134-157. *)
Definition change_pizza (pizza_id : Z) (name : option string)
    (price : option Z) (is_active : option bool) (user : User.t) : M Pizza.t :=
  pizza_detail ← CRUD.get_pizza pizza_id;
  match pizza_detail with
  | None => raise (HTTPException 404 "Pizza not found.")
  | Some pizza_detail => CRUD.change_pizza pizza_detail name price is_active
  end.

(** main.py, lines 161-175. *)
Definition create_ingredient (new_ingredient : IngredientBase.t) (user : User.t)
    : M Ingredient.t :=
  CRUD.create_ingredient new_ingredient.

(** main.py, lines 177-198. *)
Definition change_ingredient (ingredient_id : Z) (name category : option string)
    (user : User.t) : M Ingredient.t :=
  ingredient ← CRUD.get_ingredient ingredient_id;
  match ingredient with
  | None => raise (HTTPException 404 "Ingredient not found.")
  | Some ingredient => CRUD.change_ingredient ingredient name category
  end.

(** main.py, lines 200-224. *)
Definition delete_ingredient (ingredient_id : Z) (user : User.t) : M StatusDict :=
  ingredient ← CRUD.get_ingredient ingredient_id;
  match ingredient with
  | None => raise (HTTPException 404 "Ingredient not found.")
  | Some ingredient =>
      deleted ← CRUD.delete_ingredient ingredient;
      if deleted : bool then
        mret {| status := "completed";
                detail := "Ingredient " +:+ Ingredient.name ingredient +:+
                          " with id " +:+ pretty (Ingredient.id ingredient) +:+
                          " deleted" |}
      else raise (HTTPException 400 "Cannot delete an ingredient in an active pizza")
  end.

(** main.py, lines 227-253; the [print] of the new row is left out. *)
Definition add_ingredient_to_pizza (pizza_id ingredient_id : Z) (user : User.t)
    : M Association.t :=
  pizza ← CRUD.get_pizza pizza_id;
  if pizza is None then raise (HTTPException 404 "Pizza not found") else
  ingredient ← CRUD.get_ingredient ingredient_id;
  if ingredient is None then raise (HTTPException 404 "Ingredient not found") else
  association ← CRUD.get_pizza_ing_association pizza_id ingredient_id;
  if association is Some _ then
    raise (HTTPException 400 "Association already exists")
  else
    new_association ← CRUD.add_pizza_ing_association pizza_id ingredient_id;
    mret new_association.

(** main.py, lines 255-278.  The two adjacent f-strings are concatenated as
    they stand. *)
Definition remove_ingredient_to_pizza (pizza_id ingredient_id : Z) (user : User.t)
    : M StatusDict :=
  association ← CRUD.get_pizza_ing_association pizza_id ingredient_id;
  match association with
  | None => raise (HTTPException 404 "Association not found")
  | Some association =>
      _ ← CRUD.delete_pizza_ing_association association;
      mret {| status := "completed";
              detail := ("Ingredient " +:+ pretty (Association.ingredient_id association))
                        +:+ ("removed from pizza " +:+
                             pretty (Association.pizza_id association)) |}
  end.

(** ** The application: routes, dependencies and response models *)

Inductive request :=
| GET_root
| POST_signup (data : UserCreate.t)
| POST_login (username password : string)
| GET_pizzas
| GET_pizza (pizza_id : Z)
| POST_pizzas (new_pizza : PizzaCreate.t)
| PATCH_pizza (pizza_id : Z) (name : option string) (price : option Z)
    (is_active : option bool)
| POST_ingredients (new_ingredient : IngredientBase.t)
| PATCH_ingredient (ingredient_id : Z) (name category : option string)
| DELETE_ingredient (ingredient_id : Z)
| POST_pizza_ingredient (pizza_id ingredient_id : Z)
| DELETE_pizza_ingredient (pizza_id ingredient_id : Z).

Inductive response :=
| WelcomeResponse (body : string * string)
| UserResponse (body : UserSchema.t)
| TokenResponse (body : TokenSchema)
| PizzaListResponse (body : list PizzaList.t)
| PizzaResponse (body : Pizza.t)
| IngredientResponse (body : Ingredient.t)
| StatusResponse (body : StatusDict)
| AssociationResponse (body : Association.t).

(** [response_model=schemas.User] and [response_model=List[schemas.PizzaList]]:
    the response keeps the fields of the schema. *)
Definition to_UserSchema (u : User.t) : UserSchema.t :=
  UserSchema.mk (User.username u) (User.email u) (User.permission_level u).
Definition to_PizzaList (p : Pizza.t) : PizzaList.t :=
  PizzaList.mk (Pizza.id p) (Pizza.name p) (Pizza.price p) (Pizza.is_active p)
    (Pizza.ingredient_number p).

(** A route runs the dependencies its signature declares, in order, and
    then its body; an exception raised by a dependency is the response.
    [user = Depends(get_current_user)] is declared by the routes below that
    bind [user], and by no other. *)
Definition app {U : Utils} (token : option string) (r : request) : M response :=
  match r with
  | GET_root => body ← home; mret (WelcomeResponse body)
  | POST_signup data =>
      body ← create_user data; mret (UserResponse (to_UserSchema body))
  | POST_login username password =>
      body ← login username password; mret (TokenResponse body)
  | GET_pizzas =>
      user ← get_current_user token;
      body ← show_pizzas user; mret (PizzaListResponse (to_PizzaList <$> body))
  | GET_pizza pizza_id =>
      body ← show_pizza_details pizza_id; mret (PizzaResponse body)
  | POST_pizzas new_pizza =>
      user ← get_current_user token;
      body ← create_pizza new_pizza user; mret (PizzaResponse body)
  | PATCH_pizza pizza_id name price is_active =>
      user ← get_current_user token;
      body ← change_pizza pizza_id name price is_active user;
      mret (PizzaResponse body)
  | POST_ingredients new_ingredient =>
      user ← get_current_user token;
      body ← create_ingredient new_ingredient user; mret (IngredientResponse body)
  | PATCH_ingredient ingredient_id name category =>
      user ← get_current_user token;
      body ← change_ingredient ingredient_id name category user;
      mret (IngredientResponse body)
  | DELETE_ingredient ingredient_id =>
      user ← get_current_user token;
      body ← delete_ingredient ingredient_id user; mret (StatusResponse body)
  | POST_pizza_ingredient pizza_id ingredient_id =>
      user ← get_current_user token;
      body ← add_ingredient_to_pizza pizza_id ingredient_id user;
      mret (AssociationResponse body)
  | DELETE_pizza_ingredient pizza_id ingredient_id =>
      user ← get_current_user token;
      body ← remove_ingredient_to_pizza pizza_id ingredient_id user;
      mret (StatusResponse body)
  end.

(** ** The vocabulary of the specification

    The error classes, as the handlers raise them: NotFound is status 404,
    Conflict and InvalidCredentials are status 400. *)

Definition NotFound (detail : string) : exn := HTTPException 404 detail.
Definition Conflict (detail : string) : exn := HTTPException 400 detail.
Definition InvalidCredentials : exn :=
  HTTPException 400 "Incorrect username or password".

(** A username is registered when some user row carries it. *)
Definition registered (db : DB) (username : string) : Prop :=
  ∃ u, u ∈ users db ∧ User.username u = username.

(** Rewriting the stored count column of every pizza row. *)
Definition restore_counts (g : PizzaRow.t → Z) (db : DB) : DB :=
  set_pizzas (fmap (λ r, PizzaRow.mk (PizzaRow.name r) (PizzaRow.price r)
                           (PizzaRow.is_active r) (g r))) db.

(** The routes the specification lists as requiring a resolved identity:
    the mutating routes on pizzas, ingredients and associations, and the
    pizza list. *)
Definition requires_identity (r : request) : bool :=
  match r with
  | GET_pizzas
  | POST_pizzas _ | PATCH_pizza _ _ _ _
  | POST_ingredients _ | PATCH_ingredient _ _ _ | DELETE_ingredient _
  | POST_pizza_ingredient _ _ | DELETE_pizza_ingredient _ _ => true
  | GET_root | POST_signup _ | POST_login _ _ | GET_pizza _ => false
  end.

(** ** A sample deployment, for the concrete instances below *)

Module Sample.

#[export] Instance utils : Utils := {|
  get_hashed_password s := "hash:" +:+ s;
  verify_password p h := bool_decide (h = "hash:" +:+ p);
  create_access_token s := "access:" +:+ s;
  create_refresh_token s := "refresh:" +:+ s;
  jwt_decode t :=
    if bool_decide (t = "access:ann@example.com")
    then Some (mkTokenPayload "ann@example.com" 2000)
    else if bool_decide (t = "access:old@example.com")
    then Some (mkTokenPayload "ann@example.com" 10)
    else if bool_decide (t = "access:bob@example.com")
    then Some (mkTokenPayload "bob@example.com" 2000)
    else None;
  utcnow := 1000
|}.

Definition ann : User.t := User.mk "ann" "ann@example.com" "hash:pw" 0.

Definition margherita : PizzaRow.t := PizzaRow.mk "Margherita" 900 true 7.
Definition hawaii : PizzaRow.t := PizzaRow.mk "Hawaii" 1100 false 0.

Definition db : DB := {|
  users := [ann];
  pizzas := <[1 := margherita]> (<[2 := hawaii]> ∅);
  ingredient_table :=
    <[1 := IngredientBase.mk "tomato" "vegetable"]>
      (<[2 := IngredientBase.mk "basil" "herb"]> ∅);
  associations := [Association.mk 1 1]
|}.

(** Presented tokens: one that has expired, one for an unknown subject,
    one that does not decode. *)
Definition expired : option string := Some "access:old@example.com".
Definition stranger : option string := Some "access:bob@example.com".
Definition garbage : option string := Some "not-a-token".

End Sample.

(** ** Vocabulary for the store as a whole *)

(** The tables of the store. *)
Inductive table := Users | Pizzas | Ingredients | Associations.

(** The table a route's handler writes through the store layer, read off
    the handler bodies of main.py: the routes on pizzas call
    [CRUD.create_pizza] and [CRUD.change_pizza], those on ingredients
    [CRUD.create_ingredient], [CRUD.change_ingredient] and
    [CRUD.delete_ingredient], those on associations
    [CRUD.add_pizza_ing_association] and [CRUD.delete_pizza_ing_association],
    signup [CRUD.create_user]; the other handlers only read. *)
Definition written_table (r : request) : option table :=
  match r with
  | POST_signup _ => Some Users
  | POST_pizzas _ | PATCH_pizza _ _ _ _ => Some Pizzas
  | POST_ingredients _ | PATCH_ingredient _ _ _ | DELETE_ingredient _ =>
      Some Ingredients
  | POST_pizza_ingredient _ _ | DELETE_pizza_ingredient _ _ => Some Associations
  | GET_root | POST_login _ _ | GET_pizzas | GET_pizza _ => None
  end.

(** A store is consistent when no pair of ids is associated twice and every
    association row names a pizza and an ingredient that exist. *)
Definition consistent (db : DB) : Prop :=
  NoDup (associations db) ∧
  ∀ a, a ∈ associations db →
    is_Some (pizzas db !! Association.pizza_id a) ∧
    is_Some (ingredient_table db !! Association.ingredient_id a).

(** The sample deployment with a second user, of elevated permission. *)
Module SampleStaff.

Definition bob : User.t := User.mk "bob" "bob@example.com" "hash:pw2" 1.

Definition db : DB := set_users (λ l, l ++ [bob]) Sample.db.

Definition ann_token : option string := Some "access:ann@example.com".
Definition bob_token : option string := Some "access:bob@example.com".

End SampleStaff.

(** ** Auxiliary facts: first match of a query *)

Section first_match.
Context {A : Type} (P : A → Prop) `{∀ x, Decision (P x)}.

Lemma head_filter_None (l : list A) :
  head (filter P l) = None ↔ ∀ x, x ∈ l → ¬ P x.
Proof.
  induction l as [|a l IH]; simpl.
  - split; [intros _ x Hx; inversion Hx | done].
  - rewrite filter_cons. destruct (decide (P a)) as [Ha|Ha]; simpl.
    + split; [done | intros Hall; destruct (Hall a); [left | done]].
    + rewrite IH. split.
      * intros Hall x Hx. apply elem_of_cons in Hx as [->|Hx]; auto.
      * intros Hall x Hx. apply Hall. by right.
Qed.

Lemma filter_nil_forall (l : list A) :
  (∀ x, x ∈ l → ¬ P x) → filter P l = [].
Proof.
  intros Hall. apply head_filter_None in Hall.
  by destruct (filter P l).
Qed.

Lemma head_filter_Some (l : list A) (x : A) :
  head (filter P l) = Some x → x ∈ l ∧ P x.
Proof.
  intros Hh. apply head_Some_elem_of in Hh.
  by apply list_elem_of_filter in Hh as [? ?].
Qed.

Lemma head_filter_is_Some (l : list A) :
  is_Some (head (filter P l)) ↔ ∃ x, x ∈ l ∧ P x.
Proof.
  split.
  - intros [x Hx]. exists x. by apply head_filter_Some.
  - intros (x & Hx & HP). destruct (head (filter P l)) eqn:E; [eauto|].
    rewrite head_filter_None in E. by destruct (E x Hx).
Qed.
End first_match.

(** ** Running the monad *)

(** Unfolding of the monad's operations. *)
Ltac run :=
  unfold mbind, M_bind, mret, M_ret, raise, query, commit in *; simpl in *.

Lemma bind_Return {A B} (m : M A) (k : A → M B) (db db' : DB) (a : A) :
  m db = (Return a, db') → (m ≫= k) db = k a db'.
Proof. intros Hm. unfold mbind, M_bind. by rewrite Hm. Qed.

Lemma bind_Raise {A B} (m : M A) (k : A → M B) (db db' : DB) (e : exn) :
  m db = (Raise e, db') → (m ≫= k) db = (Raise e, db').
Proof. intros Hm. unfold mbind, M_bind. by rewrite Hm. Qed.

(** One step of a handler: run the first call by the equation [H]. *)
Ltac step H := erewrite bind_Return; [| apply H].
Ltac fail_with H := erewrite bind_Raise; [| apply H].

(** The reads of the store layer return without touching the store. *)
Lemma get_pizza_run db pizza_id :
  CRUD.get_pizza pizza_id db =
    (Return (CRUD.load_pizza db pizza_id <$> pizzas db !! pizza_id), db).
Proof. reflexivity. Qed.

Lemma get_ingredient_run db ingredient_id :
  CRUD.get_ingredient ingredient_id db =
    (Return (CRUD.load_ingredient db ingredient_id <$>
               ingredient_table db !! ingredient_id), db).
Proof. reflexivity. Qed.

Lemma get_user_by_username_run db username :
  CRUD.get_user_by_username username db =
    (Return (head (filter (λ u, User.username u = username) (users db))), db).
Proof. reflexivity. Qed.

Lemma get_user_by_email_run db email :
  CRUD.get_user_by_email email db =
    (Return (head (filter (λ u, User.email u = email) (users db))), db).
Proof. reflexivity. Qed.

(** ** Signup *)

Section signup.
Context {U : Utils}.

(** Signup answers Conflict exactly when the username is registered, and
    then the store is left as it was. *)
Lemma create_user_conflict_iff (data : UserCreate.t) (db : DB) :
  registered db (UserCreate.username data) ↔
  create_user data db = (Raise (Conflict "The username already exists"), db).
Proof.
  unfold registered, create_user. run.
  rewrite <- (head_filter_is_Some (λ u, User.username u = UserCreate.username data)).
  destruct (head _) as [u|]; split; intros Hx; try done.
Qed.

(** With a fresh username, the store layer is called on None: the
    outcome is the same whatever was submitted. *)
Lemma create_user_fresh (data : UserCreate.t) (db : DB) :
  ¬ registered db (UserCreate.username data) →
  create_user data db = CRUD.create_user None db.
Proof.
  unfold registered, create_user. run. intros Hfresh.
  rewrite <- (head_filter_is_Some (λ u, User.username u = UserCreate.username data))
    in Hfresh.
  destruct (head _) as [u|]; [destruct Hfresh; eauto | done].
Qed.
End signup.

(** C1, evaluated on the code: a signup for the unregistered username
    [zed] does not return a user record built from the submitted data; the
    store layer receives None, the request ends in AttributeError, and no
    user row is added.  Handing the submitted data to the store layer would
    have returned the record of [zed]. *)
Theorem signup_unregistered_username_raises :
  let data := UserCreate.mk "zed" "zed@example.com" "pw" 0 in
  ¬ registered Sample.db (UserCreate.username data) ∧
  (CRUD.create_user (U := Sample.utils) (Some data) Sample.db).1 =
    Return (User.mk "zed" "zed@example.com" "hash:pw" 0) ∧
  create_user (U := Sample.utils) data Sample.db =
    (Raise (AttributeError "'NoneType' object has no attribute 'username'"),
     Sample.db) ∧
  app (U := Sample.utils) None (POST_signup data) Sample.db =
    (Raise (AttributeError "'NoneType' object has no attribute 'username'"),
     Sample.db).
Proof.
  simpl. split; [|split; [|split]; reflexivity].
  intros (u & Hu & Hname). unfold Sample.db in Hu; simpl in Hu.
  apply list_elem_of_singleton in Hu as ->. discriminate.
Qed.

(** ** Associations *)

Section associations.

Lemma get_pizza_ing_association_None db pizza_id ingredient_id :
  Association.mk pizza_id ingredient_id ∉ associations db →
  CRUD.get_pizza_ing_association pizza_id ingredient_id db = (Return None, db).
Proof.
  intros Hnot. unfold CRUD.get_pizza_ing_association. run. do 2 f_equal.
  apply head_filter_None. intros [p i] Hin [Hp Hi]; simpl in *. by subst.
Qed.

Lemma get_pizza_ing_association_Some db pizza_id ingredient_id :
  Association.mk pizza_id ingredient_id ∈ associations db →
  CRUD.get_pizza_ing_association pizza_id ingredient_id db =
    (Return (Some (Association.mk pizza_id ingredient_id)), db).
Proof.
  intros Hin. unfold CRUD.get_pizza_ing_association. run. do 2 f_equal.
  set (P := λ a, Association.pizza_id a = pizza_id ∧
                 Association.ingredient_id a = ingredient_id).
  destruct (head (filter P (associations db))) as [[p i]|] eqn:E.
  - apply head_filter_Some in E as [_ [Hp Hi]]; simpl in *. by subst.
  - rewrite head_filter_None in E. by destruct (E _ Hin).
Qed.

Lemma count_after_append (a : Association.t) (l : list Association.t) :
  a ∉ l → length (filter (λ x, x = a) (l ++ [a])) = 1%nat.
Proof.
  intros Hnot. rewrite filter_app, length_app.
  replace (filter (λ x, x = a) l) with (@nil Association.t).
  - rewrite filter_cons. by destruct (decide (a = a)).
  - symmetry. apply filter_nil_forall. by intros x Hx ->.
Qed.

End associations.

(** C2: adding an association fails with NotFound when the pizza or the
    ingredient is missing, with Conflict when both exist and the pair is
    already associated, and otherwise creates and returns the association;
    a second identical request then answers Conflict and the store holds
    exactly one row for the pair. *)
Theorem add_ingredient_to_pizza_contract
    (db : DB) (pizza_id ingredient_id : Z) (user : User.t) :
  let a := Association.mk pizza_id ingredient_id in
  (pizzas db !! pizza_id = None ∨ ingredient_table db !! ingredient_id = None →
     ∃ detail, add_ingredient_to_pizza pizza_id ingredient_id user db =
                 (Raise (NotFound detail), db)) ∧
  (is_Some (pizzas db !! pizza_id) →
   is_Some (ingredient_table db !! ingredient_id) →
   a ∈ associations db →
     add_ingredient_to_pizza pizza_id ingredient_id user db =
       (Raise (Conflict "Association already exists"), db)) ∧
  (is_Some (pizzas db !! pizza_id) →
   is_Some (ingredient_table db !! ingredient_id) →
   a ∉ associations db →
     let db' := set_associations (λ l, l ++ [a]) db in
     add_ingredient_to_pizza pizza_id ingredient_id user db = (Return a, db') ∧
     add_ingredient_to_pizza pizza_id ingredient_id user db' =
       (Raise (Conflict "Association already exists"), db') ∧
     length (filter (λ x, x = a) (associations db')) = 1%nat).
Proof.
  intros a. split; [|split].
  - intros Hmissing. unfold add_ingredient_to_pizza. step get_pizza_run.
    destruct (pizzas db !! pizza_id) as [p|]; simpl; [|by eexists].
    step get_ingredient_run.
    destruct Hmissing as [? | ->]; [done|]. by eexists.
  - intros [p Hp] [i Hi] Hin. unfold add_ingredient_to_pizza.
    step get_pizza_run. rewrite Hp; simpl.
    step get_ingredient_run. rewrite Hi; simpl.
    by step (get_pizza_ing_association_Some _ _ _ Hin).
  - intros [p Hp] [i Hi] Hnot db'.
    assert (Hin' : a ∈ associations db').
    { unfold db'; simpl. apply elem_of_app. right. by left. }
    split; [|split].
    + unfold add_ingredient_to_pizza.
      step get_pizza_run. rewrite Hp; simpl.
      step get_ingredient_run. rewrite Hi; simpl.
      by step (get_pizza_ing_association_None _ _ _ Hnot).
    + unfold add_ingredient_to_pizza.
      step get_pizza_run. simpl. rewrite Hp; simpl.
      step get_ingredient_run. simpl. rewrite Hi; simpl.
      by step (get_pizza_ing_association_Some db' _ _ Hin').
    + by apply count_after_append.
Qed.

(** C8: removing an existing association deletes it and returns the
    confirmation that names both ids; removing one that does not exist
    fails with NotFound and leaves the store as it was. *)
Theorem remove_ingredient_to_pizza_contract
    (db : DB) (pizza_id ingredient_id : Z) (user : User.t) :
  let a := Association.mk pizza_id ingredient_id in
  (a ∈ associations db →
     let db' := set_associations (filter (λ x, x ≠ a)) db in
     remove_ingredient_to_pizza pizza_id ingredient_id user db =
       (Return {| status := "completed";
                  detail := ("Ingredient " +:+ pretty ingredient_id) +:+
                            ("removed from pizza " +:+ pretty pizza_id) |}, db') ∧
     (a ∉ associations db') ∧
     CRUD.get_pizza_ing_association pizza_id ingredient_id db' = (Return None, db')) ∧
  (a ∉ associations db →
     remove_ingredient_to_pizza pizza_id ingredient_id user db =
       (Raise (NotFound "Association not found"), db)).
Proof.
  intros a. split.
  - intros Hin db'.
    assert (Hgone : a ∉ associations db').
    { unfold db'; simpl. intros Hx. by apply list_elem_of_filter in Hx as [? _]. }
    split; [|split; [done|]].
    + unfold remove_ingredient_to_pizza.
      by step (get_pizza_ing_association_Some _ _ _ Hin).
    + by apply get_pizza_ing_association_None.
  - intros Hnot. unfold remove_ingredient_to_pizza.
    by step (get_pizza_ing_association_None _ _ _ Hnot).
Qed.

(** ** Ingredients *)

(** C3: deleting an ingredient fails with NotFound when it does not exist;
    when it exists and no association names it, it is deleted, the
    confirmation names its name and id, and a later lookup finds nothing;
    when an association names it, the request fails with Conflict and the
    ingredient is still there. *)
Theorem delete_ingredient_contract (db : DB) (ingredient_id : Z) (user : User.t) :
  (ingredient_table db !! ingredient_id = None →
     delete_ingredient ingredient_id user db =
       (Raise (NotFound "Ingredient not found."), db)) ∧
  (∀ row, ingredient_table db !! ingredient_id = Some row →
     length (CRUD.rows_of_ingredient db ingredient_id) = 0%nat →
     let db' := set_ingredient_table (delete ingredient_id) db in
     delete_ingredient ingredient_id user db =
       (Return {| status := "completed";
                  detail := "Ingredient " +:+ IngredientBase.name row +:+
                            " with id " +:+ pretty ingredient_id +:+ " deleted" |},
        db') ∧
     CRUD.get_ingredient ingredient_id db' = (Return None, db') ∧
     delete_ingredient ingredient_id user db' =
       (Raise (NotFound "Ingredient not found."), db')) ∧
  (∀ row, ingredient_table db !! ingredient_id = Some row →
     (1 ≤ length (CRUD.rows_of_ingredient db ingredient_id))%nat →
     delete_ingredient ingredient_id user db =
       (Raise (Conflict "Cannot delete an ingredient in an active pizza"), db) ∧
     CRUD.get_ingredient ingredient_id db =
       (Return (Some (CRUD.load_ingredient db ingredient_id row)), db)).
Proof.
  assert (Hmissing : ∀ db0, ingredient_table db0 !! ingredient_id = None →
            delete_ingredient ingredient_id user db0 =
              (Raise (NotFound "Ingredient not found."), db0)).
  { intros db0 Hnone. unfold delete_ingredient. step get_ingredient_run.
    by rewrite Hnone. }
  split; [by apply Hmissing | split].
  - intros row Hrow Hzero db'.
    assert (Hgone : ingredient_table db' !! ingredient_id = None).
    { unfold db'; simpl. apply lookup_delete_eq. }
    split; [|split].
    + unfold delete_ingredient. step get_ingredient_run. rewrite Hrow; simpl.
      unfold CRUD.delete_ingredient; simpl.
      by destruct (CRUD.rows_of_ingredient db ingredient_id).
    + by rewrite get_ingredient_run, Hgone.
    + by apply Hmissing.
  - intros row Hrow Hsome. split.
    + unfold delete_ingredient. step get_ingredient_run. rewrite Hrow; simpl.
      unfold CRUD.delete_ingredient; simpl.
      destruct (CRUD.rows_of_ingredient db ingredient_id); [simpl in Hsome; lia | done].
    + by rewrite get_ingredient_run, Hrow.
Qed.

(** ** Pizzas *)

Lemma get_pizza_list_all db :
  CRUD.get_pizza_list true db =
    (Return ((λ kr, CRUD.load_pizza db kr.1 kr.2) <$> map_to_list (pizzas db)), db).
Proof. reflexivity. Qed.

(** C4: the list endpoint returns every pizza of the table and no other,
    each with [ingredient_number] equal to the number of association rows
    that reference it in the store being read; the stored column plays no
    part, the response is the same whatever it holds. *)
Theorem show_pizzas_counts_live_associations (db : DB) (user : User.t) :
  ∃ pizza_list,
    show_pizzas user db = (Return pizza_list, db) ∧
    (∀ pizza, pizza ∈ pizza_list →
       is_Some (pizzas db !! Pizza.id pizza) ∧
       Pizza.ingredient_number pizza =
         Z.of_nat (length (filter (λ a, Association.pizza_id a = Pizza.id pizza)
                                  (associations db)))) ∧
    (∀ pizza_id, is_Some (pizzas db !! pizza_id) →
       ∃ pizza, pizza ∈ pizza_list ∧ Pizza.id pizza = pizza_id) ∧
    (∀ g, show_pizzas user (restore_counts g db) =
            (Return pizza_list, restore_counts g db)).
Proof.
  eexists. split; [|split; [|split]].
  - unfold show_pizzas. step get_pizza_list_all. reflexivity.
  - intros pizza Hin.
    apply list_elem_of_fmap in Hin as (loaded & -> & Hin).
    apply list_elem_of_fmap in Hin as ([k r] & -> & Hin).
    apply elem_of_map_to_list in Hin. simpl. split; [eauto | done].
  - intros pizza_id [r Hr]. eexists. split.
    + apply list_elem_of_fmap_2, list_elem_of_fmap_2.
      apply elem_of_map_to_list, Hr.
    + done.
  - intros g. unfold show_pizzas. step get_pizza_list_all.
    unfold mret, M_ret. f_equal. f_equal.
    unfold restore_counts at 1; simpl. rewrite map_to_list_fmap.
    rewrite <- !list_fmap_compose. apply list_fmap_ext.
    intros i [k r] _. reflexivity.
Qed.

(** C5: a PATCH on an existing pizza writes the supplied fields and keeps
    every field for which None was passed; the returned pizza and a later
    read both show the row so updated, and no other pizza changes.  With
    only a price supplied, name and active flag are as before.  A PATCH on
    a pizza that does not exist fails with NotFound. *)
Theorem change_pizza_contract (db : DB) (pizza_id : Z) (user : User.t)
    (name : option string) (price : option Z) (is_active : option bool) :
  (pizzas db !! pizza_id = None →
     change_pizza pizza_id name price is_active user db =
       (Raise (NotFound "Pizza not found."), db)) ∧
  (∀ row, pizzas db !! pizza_id = Some row →
     let row' := PizzaRow.mk (default (PizzaRow.name row) name)
                   (default (PizzaRow.price row) price)
                   (default (PizzaRow.is_active row) is_active)
                   (PizzaRow.ingredient_number row) in
     let db' := set_pizzas (insert pizza_id row') db in
     change_pizza pizza_id name price is_active user db =
       (Return (CRUD.load_pizza db' pizza_id row'), db') ∧
     show_pizza_details pizza_id db' =
       (Return (CRUD.load_pizza db' pizza_id row'), db') ∧
     (∀ other, other ≠ pizza_id → pizzas db' !! other = pizzas db !! other) ∧
     (name = None → is_active = None →
        PizzaRow.name row' = PizzaRow.name row ∧
        PizzaRow.is_active row' = PizzaRow.is_active row)).
Proof.
  split.
  - intros Hnone. unfold change_pizza. step get_pizza_run. by rewrite Hnone.
  - intros row Hrow row' db'. split; [|split; [|split]].
    + unfold change_pizza. step get_pizza_run. by rewrite Hrow.
    + unfold show_pizza_details. step get_pizza_run.
      unfold db' at 2; simpl. by rewrite lookup_insert_eq.
    + intros other Hother. unfold db'; simpl. by rewrite lookup_insert_ne.
    + by intros -> ->.
Qed.

(** ** Login *)

Section login.
Context {U : Utils}.

(** C6: a login fails in two ways, an absent username and a password
    that does not verify against the stored hash; both raise the same
    exception, with the same status and the same detail, and leave the
    store as it was, so every failed login looks the same to the caller. *)
Theorem login_failures_are_identical (db : DB) (username password : string) :
  (CRUD.get_user_by_username username db = (Return None, db) →
     login username password db = (Raise InvalidCredentials, db)) ∧
  (∀ user, CRUD.get_user_by_username username db = (Return (Some user), db) →
     verify_password password (User.password user) = false →
     login username password db = (Raise InvalidCredentials, db)) ∧
  (∀ e db', login username password db = (Raise e, db') →
     e = InvalidCredentials ∧ db' = db) ∧
  (∀ token e db', app token (POST_login username password) db = (Raise e, db') →
     e = InvalidCredentials ∧ db' = db).
Proof.
  assert (Hall : ∀ e db', login username password db = (Raise e, db') →
                   e = InvalidCredentials ∧ db' = db).
  { intros e db'. unfold login. step get_user_by_username_run.
    destruct (head _) as [user|]; simpl.
    - destruct (verify_password _ _); [discriminate|].
      unfold raise. by intros [= <- <-].
    - unfold raise. by intros [= <- <-]. }
  split; [|split; [|split]].
  - intros Habsent. unfold login. by step Habsent.
  - intros user Huser Hwrong. unfold login. step Huser. simpl.
    by rewrite Hwrong.
  - exact Hall.
  - intros token e db'. unfold app.
    destruct (login username password db) as [[tokens|e0] db0] eqn:Hlogin.
    + step Hlogin. discriminate.
    + fail_with Hlogin. intros [= <- <-]. by apply Hall.
Qed.

(** C9: when the username is registered and the password verifies against
    the stored hash, login returns an access token and a refresh token,
    both issued for the email of that very user, and the store is left as
    it was. *)
Theorem login_returns_token_pair (db : DB) (username password : string)
    (user : User.t) :
  CRUD.get_user_by_username username db = (Return (Some user), db) →
  verify_password password (User.password user) = true →
  login username password db =
    (Return {| access_token := create_access_token (User.email user);
               refresh_token := create_refresh_token (User.email user) |}, db) ∧
  user ∈ users db ∧ User.username user = username.
Proof.
  intros Huser Hok. split.
  - unfold login. step Huser. simpl. by rewrite Hok.
  - rewrite get_user_by_username_run in Huser. injection Huser as Huser.
    by apply head_filter_Some in Huser.
Qed.
End login.

(** ** Identity resolution and the routes *)

Section identity.
Context {U : Utils}.

(** Identity resolution reads the store and never writes it. *)
Lemma get_current_user_cases (token : option string) (db : DB) :
  get_current_user token db = (Raise Unauthorized, db) ∨
  ∃ user, get_current_user token db = (Return user, db) ∧ user ∈ users db.
Proof.
  unfold get_current_user. destruct (token ≫= jwt_decode) as [payload|]; [|by left].
  destruct (bool_decide _); [by left|].
  step get_user_by_email_run.
  destruct (head _) as [u|] eqn:Hu; [|by left].
  right. exists u. split; [done|]. by apply head_filter_Some in Hu as [? _].
Qed.

Lemma get_current_user_invalid (token : option string) (db : DB) :
  token ≫= jwt_decode = None →
  get_current_user token db = (Raise Unauthorized, db).
Proof. intros Hbad. unfold get_current_user. by rewrite Hbad. Qed.

Lemma get_current_user_expired (token : option string) (db : DB) payload :
  token ≫= jwt_decode = Some payload → exp payload < utcnow →
  get_current_user token db = (Raise Unauthorized, db).
Proof.
  intros Hdec Hexp. unfold get_current_user. rewrite Hdec.
  by rewrite bool_decide_eq_true_2.
Qed.

Lemma get_current_user_unknown (token : option string) (db : DB) payload :
  token ≫= jwt_decode = Some payload →
  CRUD.get_user_by_email (sub payload) db = (Return None, db) →
  get_current_user token db = (Raise Unauthorized, db).
Proof.
  intros Hdec Hnone. unfold get_current_user. rewrite Hdec.
  destruct (bool_decide _); [done|]. by step Hnone.
Qed.

(** A route that declares the dependency answers with what identity
    resolution raised, and its body does not run. *)
Lemma app_rejects (token : option string) (r : request) (db : DB) e :
  requires_identity r = true →
  get_current_user token db = (Raise e, db) →
  app token r db = (Raise e, db).
Proof.
  intros Hr Hfail. destruct r; try discriminate Hr; unfold app;
    by fail_with Hfail.
Qed.

(** C7: on each of the routes that create or patch a pizza, create, patch
    or delete an ingredient, add or remove an association, or list the
    pizzas, a token that is invalid, expired, or names an unknown subject
    is answered with Unauthorized and the store is untouched; such a
    route returns a result only after identity resolution has returned a
    user. *)
Theorem guarded_routes_require_identity
    (token : option string) (r : request) (db : DB) :
  requires_identity r = true →
  (token ≫= jwt_decode = None →
     app token r db = (Raise Unauthorized, db)) ∧
  (∀ payload, token ≫= jwt_decode = Some payload → exp payload < utcnow →
     app token r db = (Raise Unauthorized, db)) ∧
  (∀ payload, token ≫= jwt_decode = Some payload →
     CRUD.get_user_by_email (sub payload) db = (Return None, db) →
     app token r db = (Raise Unauthorized, db)) ∧
  (∀ body db', app token r db = (Return body, db') →
     ∃ user, get_current_user token db = (Return user, db)).
Proof.
  intros Hr. split; [|split; [|split]].
  - intros Hbad. by apply app_rejects, get_current_user_invalid.
  - intros payload Hdec Hexp.
    by eapply app_rejects, get_current_user_expired.
  - intros payload Hdec Hnone.
    by eapply app_rejects, get_current_user_unknown.
  - intros body db' Happ.
    destruct (get_current_user_cases token db) as [Hfail|(user & Huser & _)].
    + rewrite (app_rejects _ _ _ _ Hr Hfail) in Happ. discriminate.
    + by exists user.
Qed.

(** C10: the pizza-detail route declares no identity dependency.  Whatever
    token is presented, or none, it returns the pizza when the row exists
    and NotFound otherwise; it never answers Unauthorized, and this also
    where identity resolution itself would fail. *)
Theorem show_pizza_details_ignores_identity
    (token : option string) (pizza_id : Z) (db : DB) :
  app token (GET_pizza pizza_id) db =
    match pizzas db !! pizza_id with
    | Some row => (Return (PizzaResponse (CRUD.load_pizza db pizza_id row)), db)
    | None => (Raise (NotFound "Pizza not found"), db)
    end ∧
  (app token (GET_pizza pizza_id) db).1 ≠ Raise Unauthorized ∧
  (∀ token', app token' (GET_pizza pizza_id) db = app token (GET_pizza pizza_id) db).
Proof.
  assert (Hrun : app token (GET_pizza pizza_id) db =
    match pizzas db !! pizza_id with
    | Some row => (Return (PizzaResponse (CRUD.load_pizza db pizza_id row)), db)
    | None => (Raise (NotFound "Pizza not found"), db)
    end).
  { unfold app, show_pizza_details. run. by destruct (pizzas db !! pizza_id). }
  split; [exact Hrun | split].
  - rewrite Hrun. by destruct (pizzas db !! pizza_id).
  - reflexivity.
Qed.
End identity.

(** ** The contracts on the sample deployment *)

Section instances.
Import Sample.

Ltac decided := refine (bool_decide_unpack _ _); vm_compute; exact I.

Lemma add_ingredient_to_pizza_contract_witness :
  let a := Association.mk 1 2 in
  let db' := set_associations (λ l, l ++ [a]) db in
  (is_Some (pizzas db !! 1) ∧ is_Some (ingredient_table db !! 2) ∧
   a ∉ associations db) ∧
  add_ingredient_to_pizza 1 2 ann db = (Return a, db') ∧
  add_ingredient_to_pizza 1 2 ann db' =
    (Raise (Conflict "Association already exists"), db') ∧
  length (filter (λ x, x = a) (associations db')) = 1%nat ∧
  pizzas db !! 9 = None ∧
  (∃ detail, add_ingredient_to_pizza 9 2 ann db = (Raise (NotFound detail), db)) ∧
  Association.mk 1 1 ∈ associations db ∧
  add_ingredient_to_pizza 1 1 ann db =
    (Raise (Conflict "Association already exists"), db).
Proof.
  intros a db'.
  assert (Hp : is_Some (pizzas db !! 1)) by (by eexists).
  assert (Hi2 : is_Some (ingredient_table db !! 2)) by (by eexists).
  assert (Hi1 : is_Some (ingredient_table db !! 1)) by (by eexists).
  assert (Hfresh : a ∉ associations db) by decided.
  assert (Hdup : Association.mk 1 1 ∈ associations db) by decided.
  destruct (add_ingredient_to_pizza_contract db 1 2 ann) as (_ & _ & Hadd).
  destruct (Hadd Hp Hi2 Hfresh) as (Hfirst & Hsecond & Hcount).
  destruct (add_ingredient_to_pizza_contract db 9 2 ann) as (Hmissing & _ & _).
  destruct (add_ingredient_to_pizza_contract db 1 1 ann) as (_ & Hconflict & _).
  repeat split; eauto.
Defined.

Lemma remove_ingredient_to_pizza_contract_witness :
  let db' := set_associations (filter (λ x, x ≠ Association.mk 1 1)) db in
  Association.mk 1 1 ∈ associations db ∧
  remove_ingredient_to_pizza 1 1 ann db =
    (Return {| status := "completed";
               detail := "Ingredient 1removed from pizza 1" |}, db') ∧
  associations db' = [] ∧
  (Association.mk 2 1 ∉ associations db) ∧
  remove_ingredient_to_pizza 2 1 ann db =
    (Raise (NotFound "Association not found"), db).
Proof.
  intros db'.
  assert (Hin : Association.mk 1 1 ∈ associations db) by decided.
  assert (Hnot : Association.mk 2 1 ∉ associations db) by decided.
  destruct (remove_ingredient_to_pizza_contract db 1 1 ann) as (Hremove & _).
  destruct (Hremove Hin) as (Hrun & _ & _).
  destruct (remove_ingredient_to_pizza_contract db 2 1 ann) as (_ & Hmissing).
  repeat split; eauto.
Defined.

Lemma delete_ingredient_contract_witness :
  let db' := set_ingredient_table (delete 2) db in
  ingredient_table db !! 2 = Some (IngredientBase.mk "basil" "herb") ∧
  length (CRUD.rows_of_ingredient db 2) = 0%nat ∧
  delete_ingredient 2 ann db =
    (Return {| status := "completed";
               detail := "Ingredient basil with id 2 deleted" |}, db') ∧
  CRUD.get_ingredient 2 db' = (Return None, db') ∧
  ingredient_table db !! 1 = Some (IngredientBase.mk "tomato" "vegetable") ∧
  (1 ≤ length (CRUD.rows_of_ingredient db 1))%nat ∧
  delete_ingredient 1 ann db =
    (Raise (Conflict "Cannot delete an ingredient in an active pizza"), db) ∧
  ingredient_table db !! 5 = None ∧
  delete_ingredient 5 ann db = (Raise (NotFound "Ingredient not found."), db).
Proof.
  intros db'.
  assert (Hbasil : ingredient_table db !! 2 = Some (IngredientBase.mk "basil" "herb"))
    by reflexivity.
  assert (Htomato : ingredient_table db !! 1 =
                      Some (IngredientBase.mk "tomato" "vegetable")) by reflexivity.
  assert (Hfree : length (CRUD.rows_of_ingredient db 2) = 0%nat) by reflexivity.
  assert (Hused : (1 ≤ length (CRUD.rows_of_ingredient db 1))%nat)
    by (vm_compute; lia).
  assert (Hnone : ingredient_table db !! 5 = None) by reflexivity.
  destruct (delete_ingredient_contract db 2 ann) as (_ & Hdelete & _).
  destruct (Hdelete _ Hbasil Hfree) as (Hrun & Hget & _).
  destruct (delete_ingredient_contract db 1 ann) as (_ & _ & Hblocked).
  destruct (Hblocked _ Htomato Hused) as (Hconflict & _).
  destruct (delete_ingredient_contract db 5 ann) as (Hmissing & _).
  repeat split; eauto.
Defined.

Lemma show_pizzas_counts_live_associations_witness :
  ∃ pizza_list pizza,
    show_pizzas ann db = (Return pizza_list, db) ∧
    pizza ∈ pizza_list ∧ Pizza.id pizza = 1 ∧
    Pizza.ingredient_number pizza = 1 ∧
    PizzaRow.ingredient_number margherita = 7.
Proof.
  destruct (show_pizzas_counts_live_associations db ann)
    as (pizza_list & Hrun & Hcount & Hall & _).
  destruct (Hall 1) as (pizza & Hin & Hid); [by eexists|].
  exists pizza_list, pizza. repeat split; eauto.
  destruct (Hcount pizza Hin) as [_ ->]. by rewrite Hid.
Defined.

Lemma change_pizza_contract_witness :
  let row' := PizzaRow.mk "Margherita" 950 true 7 in
  let db' := set_pizzas (insert 1 row') db in
  pizzas db !! 1 = Some margherita ∧
  change_pizza 1 None (Some 950) None ann db =
    (Return (CRUD.load_pizza db' 1 row'), db') ∧
  show_pizza_details 1 db' = (Return (CRUD.load_pizza db' 1 row'), db') ∧
  pizzas db' !! 2 = Some hawaii ∧
  pizzas db !! 9 = None ∧
  change_pizza 9 None (Some 950) None ann db =
    (Raise (NotFound "Pizza not found."), db).
Proof.
  intros row' db'.
  assert (Hrow : pizzas db !! 1 = Some margherita) by reflexivity.
  assert (Hnone : pizzas db !! 9 = None) by reflexivity.
  destruct (change_pizza_contract db 1 ann None (Some 950) None) as (_ & Hpatch).
  destruct (Hpatch _ Hrow) as (Hrun & Hget & Hothers & _).
  destruct (change_pizza_contract db 9 ann None (Some 950) None) as (Hmissing & _).
  repeat split; eauto.
Defined.

Lemma login_failures_are_identical_witness :
  CRUD.get_user_by_username "nobody" db = (Return None, db) ∧
  login "nobody" "pw" db = (Raise InvalidCredentials, db) ∧
  CRUD.get_user_by_username "ann" db = (Return (Some ann), db) ∧
  verify_password "guess" (User.password ann) = false ∧
  login "ann" "guess" db = (Raise InvalidCredentials, db).
Proof.
  assert (Habsent : CRUD.get_user_by_username "nobody" db = (Return None, db))
    by reflexivity.
  assert (Hann : CRUD.get_user_by_username "ann" db = (Return (Some ann), db))
    by reflexivity.
  assert (Hwrong : verify_password "guess" (User.password ann) = false)
    by reflexivity.
  destruct (login_failures_are_identical db "nobody" "pw") as (Hno_user & _).
  destruct (login_failures_are_identical db "ann" "guess") as (_ & Hbad_pw & _).
  repeat split; eauto.
Defined.

Lemma login_returns_token_pair_witness :
  CRUD.get_user_by_username "ann" db = (Return (Some ann), db) ∧
  verify_password "pw" (User.password ann) = true ∧
  login "ann" "pw" db =
    (Return {| access_token := "access:ann@example.com";
               refresh_token := "refresh:ann@example.com" |}, db).
Proof.
  assert (Hann : CRUD.get_user_by_username "ann" db = (Return (Some ann), db))
    by reflexivity.
  assert (Hok : verify_password "pw" (User.password ann) = true) by reflexivity.
  destruct (login_returns_token_pair db "ann" "pw" ann Hann Hok) as (Hrun & _).
  repeat split; eauto.
Defined.

Lemma guarded_routes_require_identity_witness :
  requires_identity (DELETE_ingredient 2) = true ∧
  garbage ≫= jwt_decode = None ∧
  app garbage (DELETE_ingredient 2) db = (Raise Unauthorized, db) ∧
  app None GET_pizzas db = (Raise Unauthorized, db) ∧
  expired ≫= jwt_decode = Some (mkTokenPayload "ann@example.com" 10) ∧
  app expired (POST_pizza_ingredient 1 2) db = (Raise Unauthorized, db) ∧
  stranger ≫= jwt_decode = Some (mkTokenPayload "bob@example.com" 2000) ∧
  CRUD.get_user_by_email "bob@example.com" db = (Return None, db) ∧
  app stranger (PATCH_pizza 1 None (Some 1) None) db = (Raise Unauthorized, db).
Proof.
  assert (Hgarbage : garbage ≫= jwt_decode = None) by reflexivity.
  assert (Hexpired : expired ≫= jwt_decode = Some (mkTokenPayload "ann@example.com" 10))
    by reflexivity.
  assert (Hstranger : stranger ≫= jwt_decode =
                        Some (mkTokenPayload "bob@example.com" 2000)) by reflexivity.
  assert (Hbob : CRUD.get_user_by_email "bob@example.com" db = (Return None, db))
    by reflexivity.
  destruct (guarded_routes_require_identity garbage (DELETE_ingredient 2) db eq_refl)
    as (Hinvalid & _).
  destruct (guarded_routes_require_identity None GET_pizzas db eq_refl)
    as (Hnone & _).
  destruct (guarded_routes_require_identity expired (POST_pizza_ingredient 1 2) db
              eq_refl) as (_ & Hold & _).
  destruct (guarded_routes_require_identity stranger
              (PATCH_pizza 1 None (Some 1) None) db eq_refl) as (_ & _ & Hunknown & _).
  repeat split; eauto.
Defined.

End instances.

(** ** Further properties of the handlers *)

(** Full unfolding of a route down to the store. *)
Ltac unfold_handlers :=
  unfold app, home, create_user, login, show_pizzas, show_pizza_details,
    create_pizza, change_pizza, create_ingredient, change_ingredient,
    delete_ingredient, add_ingredient_to_pizza, remove_ingredient_to_pizza,
    CRUD.get_user_by_username, CRUD.create_user, CRUD.get_pizza_list,
    CRUD.get_pizza, CRUD.create_pizza, CRUD.change_pizza, CRUD.get_ingredient,
    CRUD.create_ingredient, CRUD.change_ingredient, CRUD.delete_ingredient,
    CRUD.get_pizza_ing_association, CRUD.add_pizza_ing_association,
    CRUD.delete_pizza_ing_association in *.

Lemma change_ingredient_missing db ingredient_id name category user :
  ingredient_table db !! ingredient_id = None →
  change_ingredient ingredient_id name category user db =
    (Raise (NotFound "Ingredient not found."), db).
Proof.
  intros Hnone. unfold change_ingredient. step get_ingredient_run.
  by rewrite Hnone.
Qed.

(** X1: PATCH on an ingredient: NotFound when the ingredient does not exist;
    otherwise the supplied ones of name and category are written and the
    others kept, the returned ingredient and a later lookup show the row so
    updated, and neither another ingredient nor an association changes. *)
Theorem change_ingredient_contract (db : DB) (ingredient_id : Z) (user : User.t)
    (name category : option string) :
  (ingredient_table db !! ingredient_id = None →
     change_ingredient ingredient_id name category user db =
       (Raise (NotFound "Ingredient not found."), db)) ∧
  (∀ row, ingredient_table db !! ingredient_id = Some row →
     let row' := IngredientBase.mk (default (IngredientBase.name row) name)
                   (default (IngredientBase.category row) category) in
     let db' := set_ingredient_table (insert ingredient_id row') db in
     change_ingredient ingredient_id name category user db =
       (Return (CRUD.load_ingredient db' ingredient_id row'), db') ∧
     CRUD.get_ingredient ingredient_id db' =
       (Return (Some (CRUD.load_ingredient db' ingredient_id row')), db') ∧
     (∀ other, other ≠ ingredient_id →
        ingredient_table db' !! other = ingredient_table db !! other) ∧
     Ingredient.pizzas (CRUD.load_ingredient db' ingredient_id row') =
       CRUD.rows_of_ingredient db ingredient_id).
Proof.
  split; [apply change_ingredient_missing|].
  intros row Hrow row' db'. split; [|split; [|split]].
  - unfold change_ingredient. step get_ingredient_run. by rewrite Hrow.
  - rewrite get_ingredient_run. unfold db' at 2; simpl.
    by rewrite lookup_insert_eq.
  - intros other Hother. unfold db'; simpl. by rewrite lookup_insert_ne.
  - reflexivity.
Qed.

(** What a route guarded by identity resolution does first, in the two cases
    of the resolution. *)
Ltac resolve token db :=
  let Hfail := fresh "Hfail" in
  let Huser := fresh "Huser" in
  let user := fresh "user" in
  destruct (get_current_user_cases token db) as [Hfail | (user & Huser & _)];
  [ fail_with Hfail | step Huser ].

Section whole_app.
Context {U : Utils}.

(** X2: a request that ends in an exception has changed nothing: every handler
    raises before its first write. *)
Theorem failed_request_leaves_store
    (token : option string) (r : request) (db db' : DB) (e : exn) :
  app token r db = (Raise e, db') → db' = db.
Proof.
  destruct r; unfold app; try resolve token db;
    try (intros [= _ <-]; reflexivity);
    unfold_handlers; run; intros Hrun;
    repeat case_match; simplify_eq/=; done.
Qed.

(** X3: each route writes at most the table of its handler: the pizza table is
    changed only by the routes on pizzas, the ingredient table only by the
    routes on ingredients, the association rows only by the routes on
    associations, whatever the outcome of the request. *)
Theorem routes_write_their_own_table
    (token : option string) (r : request) (db : DB) :
  let db' := (app token r db).2 in
  (written_table r ≠ Some Pizzas → pizzas db' = pizzas db) ∧
  (written_table r ≠ Some Ingredients → ingredient_table db' = ingredient_table db) ∧
  (written_table r ≠ Some Associations → associations db' = associations db).
Proof.
  destruct r; simpl; unfold app; try resolve token db;
    unfold_handlers; run; repeat case_match; simplify_eq/=; done.
Qed.

(** X4: a response depends on the token only through identity resolution.  The
    routes outside [requires_identity] (home, signup, login, pizza detail)
    answer the same whatever is presented; on every route, two tokens that
    both resolve, to whichever users and permission levels, get the same
    response and leave the same store. *)
Theorem token_matters_only_through_resolution
    (token1 token2 : option string) (r : request) (db : DB) :
  (requires_identity r = false → app token1 r db = app token2 r db) ∧
  (∀ user1 user2,
     get_current_user token1 db = (Return user1, db) →
     get_current_user token2 db = (Return user2, db) →
     app token1 r db = app token2 r db).
Proof.
  split.
  - intros Hr. by destruct r.
  - intros user1 user2 H1 H2. destruct r; unfold app; try reflexivity;
      by rewrite (bind_Return _ _ _ _ _ H1), (bind_Return _ _ _ _ _ H2).
Qed.

End whole_app.

(** ** Consistency of the store *)

Lemma consistent_set_users f db : consistent db → consistent (set_users f db).
Proof. by intros [? ?]. Qed.

Lemma consistent_insert_pizza k row db :
  consistent db → consistent (set_pizzas (insert k row) db).
Proof.
  intros [Hnodup Hrefs]. split; [done|]. intros a Ha; simpl.
  destruct (Hrefs a Ha) as [Hp Hi]. split; [|done].
  apply lookup_insert_is_Some'. by right.
Qed.

Lemma consistent_insert_ingredient k row db :
  consistent db → consistent (set_ingredient_table (insert k row) db).
Proof.
  intros [Hnodup Hrefs]. split; [done|]. intros a Ha; simpl.
  destruct (Hrefs a Ha) as [Hp Hi]. split; [done|].
  apply lookup_insert_is_Some'. by right.
Qed.

Lemma consistent_delete_ingredient k db :
  CRUD.rows_of_ingredient db k = [] →
  consistent db → consistent (set_ingredient_table (delete k) db).
Proof.
  intros Hfree [Hnodup Hrefs]. split; [done|]. intros a Ha; simpl.
  destruct (Hrefs a Ha) as [Hp Hi]. split; [done|].
  rewrite lookup_delete_ne; [done|]. intros ->.
  by eapply (filter_nil_not_elem_of _ _ a Hfree).
Qed.

Lemma consistent_add_association pizza_id ingredient_id db :
  is_Some (pizzas db !! pizza_id) →
  is_Some (ingredient_table db !! ingredient_id) →
  Association.mk pizza_id ingredient_id ∉ associations db →
  consistent db →
  consistent (set_associations (λ l, l ++ [Association.mk pizza_id ingredient_id]) db).
Proof.
  intros Hp Hi Hnew [Hnodup Hrefs]. split; simpl.
  - apply NoDup_app. split; [done|]. split; [|apply NoDup_singleton].
    intros x Hx Hx'. apply list_elem_of_singleton in Hx'. by subst.
  - intros a Ha. apply elem_of_app in Ha as [Ha|Ha]; [by apply Hrefs|].
    apply list_elem_of_singleton in Ha. by subst.
Qed.

Lemma consistent_remove_association a db :
  consistent db → consistent (set_associations (filter (λ x, x ≠ a)) db).
Proof.
  intros [Hnodup Hrefs]. split; simpl.
  - by apply NoDup_filter.
  - intros x Hx. apply list_elem_of_filter in Hx as [_ Hx]. by apply Hrefs.
Qed.

Section invariants.
Context {U : Utils}.

(** X5: every request keeps the store consistent: whatever the route, the
    token and the outcome, the store after holds no pair of ids twice and
    no association row that names a missing pizza or ingredient.  The
    handlers see to it by the existence and duplicate checks of
    [add_ingredient_to_pizza] and the refusal to delete a referenced
    ingredient. *)
Theorem consistent_preserved (token : option string) (r : request) (db : DB) :
  consistent db → consistent (app token r db).2.
Proof.
  intros Hdb. destruct r; unfold app; try resolve token db; try done.
  all: unfold_handlers; run; repeat case_match; simplify_eq/=; try done.
  all: try (by apply consistent_insert_pizza).
  all: try (by apply consistent_insert_ingredient).
  all: try (by apply consistent_remove_association).
  - match goal with
    | H : _ <$> _ = Some _ |- _ => apply fmap_Some in H as (row & Hrow & ->)
    end.
    by apply consistent_delete_ingredient.
  - repeat match goal with
    | H : _ <$> _ = Some _ |- _ => apply fmap_Some in H as (? & ? & ?)
    end.
    apply consistent_add_association; [by eexists | by eexists | | done].
    match goal with
    | H : head _ = None |- _ => rewrite head_filter_None in H; intros Hin;
                                 by destruct (H _ Hin)
    end.
Qed.

(** X6: no request changes the user table.  Signup is the one route whose
    handler calls a writer of that table, and it reaches it only on the
    branch where the lookup result handed over is None. *)
Theorem no_request_changes_users (token : option string) (r : request) (db : DB) :
  users (app token r db).2 = users db.
Proof.
  destruct r; unfold app; try resolve token db;
    unfold_handlers; run; repeat case_match; simplify_eq/=; done.
Qed.

End invariants.

(** ** How the association routes compose with the others *)

Lemma show_pizzas_run (user : User.t) (db : DB) :
  show_pizzas user db =
    (Return ((λ kr : Z * PizzaRow.t,
                Pizza.mk kr.1 (PizzaRow.name kr.2) (PizzaRow.price kr.2)
                  (PizzaRow.is_active kr.2)
                  (Z.of_nat (length (CRUD.rows_of_pizza db kr.1)))
                  (CRUD.rows_of_pizza db kr.1)) <$> map_to_list (pizzas db)), db).
Proof.
  unfold show_pizzas. step get_pizza_list_all. unfold mret, M_ret.
  by rewrite <- list_fmap_compose.
Qed.

(** What a successful add tells about the store before and after. *)
Lemma add_ingredient_to_pizza_inv pizza_id ingredient_id user db db' a :
  add_ingredient_to_pizza pizza_id ingredient_id user db = (Return a, db') →
  a = Association.mk pizza_id ingredient_id ∧
  is_Some (pizzas db !! pizza_id) ∧
  is_Some (ingredient_table db !! ingredient_id) ∧
  (a ∉ associations db) ∧
  db' = set_associations (λ l, l ++ [a]) db.
Proof.
  unfold_handlers; run; intros Hrun; repeat case_match; simplify_eq/=.
  repeat match goal with
  | H : _ <$> _ = Some _ |- _ => apply fmap_Some in H as (? & ? & ?)
  end.
  repeat split; [by eexists | by eexists |].
  match goal with
  | H : head _ = None |- _ => rewrite head_filter_None in H; intros Hin;
                               by destruct (H _ Hin)
  end.
Qed.

(** What a successful remove tells about the store before and after. *)
Lemma remove_ingredient_to_pizza_inv pizza_id ingredient_id user db db' msg :
  remove_ingredient_to_pizza pizza_id ingredient_id user db = (Return msg, db') →
  Association.mk pizza_id ingredient_id ∈ associations db ∧
  db' = set_associations (filter (λ x, x ≠ Association.mk pizza_id ingredient_id)) db.
Proof.
  unfold_handlers; run; intros Hrun; repeat case_match; simplify_eq/=.
  match goal with
  | H : head _ = Some ?a |- _ =>
      apply head_filter_Some in H as [Hin [Hp Hi]]; destruct a; simpl in *; subst
  end.
  done.
Qed.

Lemma filter_ne_snoc (a : Association.t) (l : list Association.t) :
  a ∉ l → filter (λ x, x ≠ a) (l ++ [a]) = l.
Proof.
  intros Hnot. rewrite filter_app, filter_cons, filter_nil.
  destruct (decide (a ≠ a)); [done|]. rewrite app_nil_r.
  induction l as [|x l IH]; [done|].
  apply not_elem_of_cons in Hnot as [Hx Hl].
  rewrite filter_cons_True by done. f_equal. by apply IH.
Qed.

Lemma length_filter_ne (a : Association.t) (l : list Association.t) :
  NoDup l → a ∈ l → (length (filter (λ x, x ≠ a) l) + 1 = length l)%nat.
Proof.
  induction 1 as [|x l Hx Hnodup IH]; intros Hin; [by apply elem_of_nil in Hin|].
  rewrite filter_cons. destruct (decide (x ≠ a)) as [Hne|Heq]; simpl.
  - apply elem_of_cons in Hin as [->|Hin]; [done|]. by rewrite IH.
  - apply dec_stable in Heq as ->. f_equal. rewrite Nat.add_1_r. f_equal.
    clear IH Hin Hnodup. induction l as [|y l IH]; [done|].
    apply not_elem_of_cons in Hx as [Hy Hl].
    rewrite filter_cons_True by done. simpl. f_equal. by apply IH.
Qed.

(** X7: adding an association and then removing it puts the store back as it
    was, row for row. *)
Theorem add_then_remove_restores
    (db db' : DB) (pizza_id ingredient_id : Z) (user : User.t) (a : Association.t) :
  add_ingredient_to_pizza pizza_id ingredient_id user db = (Return a, db') →
  remove_ingredient_to_pizza pizza_id ingredient_id user db' =
    (Return {| status := "completed";
               detail := ("Ingredient " +:+ pretty ingredient_id) +:+
                         ("removed from pizza " +:+ pretty pizza_id) |}, db).
Proof.
  intros Hadd.
  apply add_ingredient_to_pizza_inv in Hadd as (-> & _ & _ & Hnew & ->).
  unfold remove_ingredient_to_pizza.
  step (get_pizza_ing_association_Some
          (set_associations
             (λ l, l ++ [Association.mk pizza_id ingredient_id]) db)
          pizza_id ingredient_id).
  - unfold CRUD.delete_pizza_ing_association. run. f_equal.
    destruct db as [us ps ings assocs]; unfold set_associations; simpl in *.
    f_equal. by apply filter_ne_snoc.
  - simpl. apply elem_of_app. right. by left.
Qed.

(** X8: after a successful add, the pizza list is the list before with the
    count of that one pizza raised by one and the new row among its
    ingredients; every other pizza is listed as before. *)
Theorem add_raises_listed_count
    (db db' : DB) (pizza_id ingredient_id : Z) (user : User.t) (a : Association.t) :
  add_ingredient_to_pizza pizza_id ingredient_id user db = (Return a, db') →
  ∃ pizza_list,
    show_pizzas user db = (Return pizza_list, db) ∧
    show_pizzas user db' =
      (Return ((λ pizza,
                  if bool_decide (Pizza.id pizza = pizza_id)
                  then Pizza.mk (Pizza.id pizza) (Pizza.name pizza)
                         (Pizza.price pizza) (Pizza.is_active pizza)
                         (Pizza.ingredient_number pizza + 1)
                         (Pizza.ingredients pizza ++ [a])
                  else pizza) <$> pizza_list), db').
Proof.
  intros Hadd.
  apply add_ingredient_to_pizza_inv in Hadd as (-> & _ & _ & _ & ->).
  eexists. split; [apply show_pizzas_run|].
  rewrite show_pizzas_run. f_equal. f_equal. simpl.
  rewrite <- list_fmap_compose. apply list_fmap_ext. intros i [k row] _; simpl.
  unfold CRUD.rows_of_pizza; simpl. rewrite filter_app, filter_cons, filter_nil; simpl.
  case_bool_decide; subst.
  - rewrite decide_True by done. f_equal. rewrite length_app; simpl. lia.
  - rewrite decide_False by done. by rewrite app_nil_r.
Qed.

(** X9: after a successful remove on a consistent store, the pizza list is the
    list before with the count of that one pizza lowered by one and the row
    gone from its ingredients; every other pizza is listed as before. *)
Theorem remove_lowers_listed_count
    (db db' : DB) (pizza_id ingredient_id : Z) (user : User.t) (msg : StatusDict) :
  consistent db →
  remove_ingredient_to_pizza pizza_id ingredient_id user db = (Return msg, db') →
  ∃ pizza_list,
    show_pizzas user db = (Return pizza_list, db) ∧
    show_pizzas user db' =
      (Return ((λ pizza,
                  if bool_decide (Pizza.id pizza = pizza_id)
                  then Pizza.mk (Pizza.id pizza) (Pizza.name pizza)
                         (Pizza.price pizza) (Pizza.is_active pizza)
                         (Pizza.ingredient_number pizza - 1)
                         (filter (λ x, x ≠ Association.mk pizza_id ingredient_id)
                                 (Pizza.ingredients pizza))
                  else pizza) <$> pizza_list), db').
Proof.
  intros [Hnodup _] Hremove.
  apply remove_ingredient_to_pizza_inv in Hremove as (Hin & ->).
  eexists. split; [apply show_pizzas_run|].
  rewrite show_pizzas_run. f_equal. f_equal. simpl.
  rewrite <- list_fmap_compose. apply list_fmap_ext. intros i [k row] _; simpl.
  set (a := Association.mk pizza_id ingredient_id) in *.
  assert (Hswap : CRUD.rows_of_pizza
                    (set_associations (filter (λ x, x ≠ a)) db) k =
                  filter (λ x, x ≠ a) (CRUD.rows_of_pizza db k)).
  { unfold CRUD.rows_of_pizza; simpl. rewrite !list_filter_filter.
    apply list_filter_iff. intros x; split; intros [? ?]; by split. }
  rewrite Hswap. case_bool_decide; subst.
  - f_equal.
    assert (Hlen := length_filter_ne a (CRUD.rows_of_pizza db pizza_id)).
    unfold CRUD.rows_of_pizza in Hlen at 1 2.
    rewrite <- Hlen; [lia | by apply NoDup_filter |].
    apply list_elem_of_filter. by split.
  - assert (Hsame : filter (λ x, x ≠ a) (CRUD.rows_of_pizza db k) =
                    CRUD.rows_of_pizza db k).
    { unfold CRUD.rows_of_pizza. rewrite list_filter_filter_r; [done|].
      intros x Hx ->. by simpl in Hx. }
    by rewrite Hsame.
Qed.

(** X10: an ingredient that has just been added to a pizza cannot be deleted:
    the delete answers Conflict and changes nothing.  If the ingredient was
    on no pizza before, removing the association again and then deleting
    succeeds, and the store is the one before the add without the
    ingredient. *)
Theorem added_ingredient_is_protected
    (db db' : DB) (pizza_id ingredient_id : Z) (user : User.t) (a : Association.t) :
  add_ingredient_to_pizza pizza_id ingredient_id user db = (Return a, db') →
  delete_ingredient ingredient_id user db' =
    (Raise (Conflict "Cannot delete an ingredient in an active pizza"), db') ∧
  (length (CRUD.rows_of_ingredient db ingredient_id) = 0%nat →
   ∃ row, ingredient_table db !! ingredient_id = Some row ∧
     (_ ← remove_ingredient_to_pizza pizza_id ingredient_id user;
      delete_ingredient ingredient_id user) db' =
       (Return {| status := "completed";
                  detail := "Ingredient " +:+ IngredientBase.name row +:+
                            " with id " +:+ pretty ingredient_id +:+ " deleted" |},
        set_ingredient_table (delete ingredient_id) db)).
Proof.
  intros Hadd. pose proof (add_then_remove_restores _ _ _ _ _ _ Hadd) as Hback.
  apply add_ingredient_to_pizza_inv in Hadd as (-> & _ & [row Hrow] & _ & ->).
  split.
  - unfold delete_ingredient. step get_ingredient_run. simpl. rewrite Hrow; simpl.
    unfold CRUD.delete_ingredient; simpl.
    destruct (CRUD.rows_of_ingredient _ _) as [|x l] eqn:Hrows; [|done].
    apply (f_equal (λ l, Association.mk pizza_id ingredient_id ∈ l)) in Hrows.
    assert (Hin : Association.mk pizza_id ingredient_id ∈ @nil Association.t).
    { rewrite <- Hrows. apply list_elem_of_filter. split; [done|].
      simpl. apply elem_of_app. right. by left. }
    by apply elem_of_nil in Hin.
  - intros Hfree. exists row. split; [done|].
    step Hback. unfold delete_ingredient. step get_ingredient_run.
    rewrite Hrow; simpl. unfold CRUD.delete_ingredient; simpl.
    by destruct (CRUD.rows_of_ingredient db ingredient_id).
Qed.

(** ** PATCH, create and read on one table *)

(** X11: a PATCH that supplies no field changes nothing and returns the pizza as
    it is stored; and a PATCH is idempotent: sent a second time it returns
    the same pizza and leaves the store of the first. *)
Theorem change_pizza_noop_and_idempotent (db : DB) (pizza_id : Z) (user : User.t) :
  (∀ row, pizzas db !! pizza_id = Some row →
     change_pizza pizza_id None None None user db =
       (Return (CRUD.load_pizza db pizza_id row), db)) ∧
  (∀ name price is_active pizza db',
     change_pizza pizza_id name price is_active user db = (Return pizza, db') →
     change_pizza pizza_id name price is_active user db' = (Return pizza, db')).
Proof.
  split.
  - intros [n p a c] Hrow. unfold change_pizza. step get_pizza_run.
    rewrite Hrow; simpl. unfold CRUD.change_pizza; simpl.
    destruct db as [us ps ings assocs]; unfold set_pizzas; simpl in *.
    by rewrite (insert_id _ _ _ Hrow).
  - intros name price is_active pizza db'. unfold change_pizza at 1.
    step get_pizza_run. destruct (pizzas db !! pizza_id) as [row|] eqn:Hrow;
      simpl; [|discriminate].
    unfold CRUD.change_pizza; simpl. intros [= <- <-].
    unfold change_pizza. step get_pizza_run. simpl.
    rewrite lookup_insert_eq; simpl. unfold CRUD.change_pizza; simpl.
    destruct db as [us ps ings assocs]; unfold set_pizzas; simpl in *.
    rewrite insert_insert_eq.
    by destruct name, price, is_active.
Qed.

(** X12: the list holds each pizza of the table exactly once, and what it shows
    agrees with the detail route: same name, price and active flag, and a
    count equal to the number of ingredients the detail route returns. *)
Theorem show_pizzas_agrees_with_details (db : DB) (user : User.t) :
  ∃ pizza_list,
    show_pizzas user db = (Return pizza_list, db) ∧
    NoDup (Pizza.id <$> pizza_list) ∧
    length pizza_list = size (pizzas db) ∧
    (∀ pizza, pizza ∈ pizza_list →
       ∃ pizza_detail,
         show_pizza_details (Pizza.id pizza) db = (Return pizza_detail, db) ∧
         Pizza.name pizza = Pizza.name pizza_detail ∧
         Pizza.price pizza = Pizza.price pizza_detail ∧
         Pizza.is_active pizza = Pizza.is_active pizza_detail ∧
         Pizza.ingredient_number pizza =
           Z.of_nat (length (Pizza.ingredients pizza_detail))).
Proof.
  eexists. split; [apply show_pizzas_run|]. split; [|split].
  - rewrite <- list_fmap_compose.
    replace (Pizza.id ∘ _) with (@fst Z PizzaRow.t) by done.
    apply NoDup_fst_map_to_list.
  - rewrite length_fmap. apply length_map_to_list.
  - intros pizza Hin. apply list_elem_of_fmap in Hin as ([k row] & -> & Hin).
    apply elem_of_map_to_list in Hin. simpl in *.
    eexists. split.
    + unfold show_pizza_details. step get_pizza_run. by rewrite Hin.
    + done.
Qed.

Lemma next_id_fresh {A} (t : gmap Z A) : t !! CRUD.next_id t = None.
Proof.
  assert (Hbound : ∀ k : Z, is_Some (t !! k) →
            (k ≤ map_fold (λ k (_ : A) acc, Z.max k acc) 0 t)%Z).
  { apply (map_fold_weak_ind
             (λ (r : Z) (m : gmap Z A), ∀ k : Z, is_Some (m !! k) → (k ≤ r)%Z)).
    - intros k [x Hx]. by rewrite lookup_empty in Hx.
    - intros i x m r Hi IH k Hk.
      apply lookup_insert_is_Some in Hk as [->|[_ Hk]]; [lia|].
      specialize (IH k Hk). lia. }
  destruct (t !! CRUD.next_id t) eqn:E; [|done].
  specialize (Hbound (CRUD.next_id t) (mk_is_Some _ _ E)).
  unfold CRUD.next_id in Hbound at 1. lia.
Qed.

(** X13: a created pizza gets an id that was not in use, carries the submitted
    name, price and active flag, is what the detail route then returns, and
    leaves every other pizza as it was; on a consistent store it starts
    with no ingredient. *)
Theorem create_pizza_contract (db : DB) (new_pizza : PizzaCreate.t) (user : User.t) :
  ∃ pizza db',
    create_pizza new_pizza user db = (Return pizza, db') ∧
    pizzas db !! Pizza.id pizza = None ∧
    Pizza.name pizza = PizzaCreate.name new_pizza ∧
    Pizza.price pizza = PizzaCreate.price new_pizza ∧
    Pizza.is_active pizza = PizzaCreate.is_active new_pizza ∧
    show_pizza_details (Pizza.id pizza) db' = (Return pizza, db') ∧
    (∀ other, other ≠ Pizza.id pizza → pizzas db' !! other = pizzas db !! other) ∧
    (consistent db → Pizza.ingredients pizza = []).
Proof.
  do 2 eexists. split; [reflexivity|]. simpl.
  split; [apply next_id_fresh|]. do 3 (split; [done|]). split; [|split].
  - unfold show_pizza_details. step get_pizza_run. simpl.
    by rewrite lookup_insert_eq.
  - intros other Hother. by rewrite lookup_insert_ne.
  - intros [_ Hrefs]. apply filter_nil_forall. intros a Ha Hid.
    destruct (Hrefs a Ha) as [[row Hrow] _].
    rewrite Hid, next_id_fresh in Hrow. discriminate.
Qed.

(** X14: on a consistent store, an ingredient that has just been created can be
    deleted at once, and the store is then the one before the creation. *)
Theorem create_then_delete_ingredient
    (db db' : DB) (new_ingredient : IngredientBase.t) (user : User.t)
    (ingredient : Ingredient.t) :
  consistent db →
  create_ingredient new_ingredient user db = (Return ingredient, db') →
  ingredient_table db !! Ingredient.id ingredient = None ∧
  Ingredient.name ingredient = IngredientBase.name new_ingredient ∧
  Ingredient.category ingredient = IngredientBase.category new_ingredient ∧
  delete_ingredient (Ingredient.id ingredient) user db' =
    (Return {| status := "completed";
               detail := "Ingredient " +:+ IngredientBase.name new_ingredient +:+
                         " with id " +:+ pretty (Ingredient.id ingredient) +:+
                         " deleted" |}, db).
Proof.
  intros [_ Hrefs]. unfold create_ingredient, CRUD.create_ingredient.
  intros [= <- <-]. simpl.
  pose proof (next_id_fresh (ingredient_table db)) as Hfresh.
  split; [done|]. do 2 (split; [done|]).
  unfold delete_ingredient. step get_ingredient_run. simpl.
  rewrite lookup_insert_eq; simpl. unfold CRUD.delete_ingredient; simpl.
  assert (Hfree : CRUD.rows_of_ingredient
                    (set_ingredient_table
                       (insert (CRUD.next_id (ingredient_table db)) new_ingredient) db)
                    (CRUD.next_id (ingredient_table db)) = []).
  { apply filter_nil_forall. intros a Ha Hid. simpl in Ha.
    destruct (Hrefs a Ha) as [_ [row Hrow]].
    rewrite Hid, Hfresh in Hrow. discriminate. }
  rewrite Hfree. run. do 2 f_equal.
  destruct db as [us ps ings assocs]; unfold set_ingredient_table; simpl in *.
  f_equal. rewrite delete_insert_eq. by apply delete_id.
Qed.

(** ** The further properties on the sample deployment *)

Section more_instances.
Import Sample.

Lemma sample_consistent : consistent db.
Proof.
  split.
  - apply NoDup_singleton.
  - intros a Ha. apply list_elem_of_singleton in Ha as ->. split; by eexists.
Defined.

Lemma change_ingredient_contract_witness :
  let row' := IngredientBase.mk "basil" "leaf" in
  let db' := set_ingredient_table (insert 2 row') db in
  ingredient_table db !! 2 = Some (IngredientBase.mk "basil" "herb") ∧
  change_ingredient 2 None (Some "leaf") ann db =
    (Return (CRUD.load_ingredient db' 2 row'), db') ∧
  ingredient_table db !! 5 = None ∧
  change_ingredient 5 None (Some "leaf") ann db =
    (Raise (NotFound "Ingredient not found."), db).
Proof.
  intros row' db'.
  assert (Hrow : ingredient_table db !! 2 = Some (IngredientBase.mk "basil" "herb"))
    by reflexivity.
  assert (Hnone : ingredient_table db !! 5 = None) by reflexivity.
  destruct (change_ingredient_contract db 2 ann None (Some "leaf")) as (_ & Hpatch).
  destruct (Hpatch _ Hrow) as (Hrun & _).
  destruct (change_ingredient_contract db 5 ann None (Some "leaf")) as (Hmissing & _).
  repeat split; eauto.
Defined.

Lemma failed_request_leaves_store_witness :
  app SampleStaff.ann_token (DELETE_ingredient 1) db =
    (Raise (Conflict "Cannot delete an ingredient in an active pizza"), db) ∧
  db = db.
Proof.
  assert (Hrun : app SampleStaff.ann_token (DELETE_ingredient 1) db =
    (Raise (Conflict "Cannot delete an ingredient in an active pizza"), db))
    by reflexivity.
  split; [exact Hrun|].
  exact (failed_request_leaves_store SampleStaff.ann_token (DELETE_ingredient 1) db db _ Hrun).
Defined.

Lemma routes_write_their_own_table_witness :
  written_table (PATCH_pizza 1 None (Some 950) None) ≠ Some Ingredients ∧
  written_table (PATCH_pizza 1 None (Some 950) None) ≠ Some Associations ∧
  ingredient_table (app SampleStaff.ann_token (PATCH_pizza 1 None (Some 950) None) db).2 =
    ingredient_table db ∧
  associations (app SampleStaff.ann_token (PATCH_pizza 1 None (Some 950) None) db).2 =
    associations db.
Proof.
  destruct (routes_write_their_own_table SampleStaff.ann_token (PATCH_pizza 1 None (Some 950) None) db)
    as (_ & Hings & Hassocs).
  assert (H1 : written_table (PATCH_pizza 1 None (Some 950) None) ≠ Some Ingredients)
    by discriminate.
  assert (H2 : written_table (PATCH_pizza 1 None (Some 950) None) ≠ Some Associations)
    by discriminate.
  repeat split; eauto.
Defined.

Lemma token_matters_only_through_resolution_witness :
  get_current_user SampleStaff.ann_token SampleStaff.db = (Return ann, SampleStaff.db) ∧
  get_current_user SampleStaff.bob_token SampleStaff.db =
    (Return SampleStaff.bob, SampleStaff.db) ∧
  app SampleStaff.ann_token GET_pizzas SampleStaff.db =
    app SampleStaff.bob_token GET_pizzas SampleStaff.db ∧
  requires_identity (POST_login "ann" "pw") = false ∧
  app None (POST_login "ann" "pw") db = app garbage (POST_login "ann" "pw") db.
Proof.
  assert (Hann : get_current_user SampleStaff.ann_token SampleStaff.db =
                   (Return ann, SampleStaff.db)) by reflexivity.
  assert (Hbob : get_current_user SampleStaff.bob_token SampleStaff.db =
                   (Return SampleStaff.bob, SampleStaff.db)) by reflexivity.
  destruct (token_matters_only_through_resolution SampleStaff.ann_token
              SampleStaff.bob_token GET_pizzas SampleStaff.db) as (_ & Hsame).
  destruct (token_matters_only_through_resolution None garbage
              (POST_login "ann" "pw") db) as (Hpublic & _).
  repeat split; eauto.
Defined.

Lemma consistent_preserved_witness :
  consistent db ∧ consistent (app SampleStaff.ann_token (POST_pizza_ingredient 2 2) db).2.
Proof.
  split; [exact sample_consistent|].
  exact (consistent_preserved SampleStaff.ann_token (POST_pizza_ingredient 2 2) db sample_consistent).
Defined.

Lemma add_then_remove_restores_witness :
  let db' := set_associations (λ l, l ++ [Association.mk 2 2]) db in
  add_ingredient_to_pizza 2 2 ann db = (Return (Association.mk 2 2), db') ∧
  remove_ingredient_to_pizza 2 2 ann db' =
    (Return {| status := "completed";
               detail := "Ingredient 2removed from pizza 2" |}, db).
Proof.
  intros db'.
  assert (Hadd : add_ingredient_to_pizza 2 2 ann db = (Return (Association.mk 2 2), db'))
    by reflexivity.
  split; [exact Hadd|].
  exact (add_then_remove_restores db db' 2 2 ann _ Hadd).
Defined.

Lemma add_raises_listed_count_witness :
  let db' := set_associations (λ l, l ++ [Association.mk 1 2]) db in
  add_ingredient_to_pizza 1 2 ann db = (Return (Association.mk 1 2), db') ∧
  (∃ before, show_pizzas ann db = (Return before, db) ∧
             Pizza.ingredient_number <$> before = [0; 1]) ∧
  (∃ after, show_pizzas ann db' = (Return after, db') ∧
            Pizza.ingredient_number <$> after = [0; 2]).
Proof.
  intros db'.
  assert (Hadd : add_ingredient_to_pizza 1 2 ann db = (Return (Association.mk 1 2), db'))
    by reflexivity.
  destruct (add_raises_listed_count db db' 1 2 ann _ Hadd) as (l & Hbefore & Hafter).
  pose proof (f_equal fst Hbefore) as Hl. vm_compute in Hl. injection Hl as <-.
  split; [exact Hadd|]. split.
  - eexists. split; [exact Hbefore|]. reflexivity.
  - eexists. split; [exact Hafter|]. reflexivity.
Defined.

Lemma remove_lowers_listed_count_witness :
  let db' := set_associations (filter (λ x, x ≠ Association.mk 1 1)) db in
  consistent db ∧
  remove_ingredient_to_pizza 1 1 ann db =
    (Return {| status := "completed";
               detail := "Ingredient 1removed from pizza 1" |}, db') ∧
  (∃ before, show_pizzas ann db = (Return before, db) ∧
             Pizza.ingredient_number <$> before = [0; 1]) ∧
  (∃ after, show_pizzas ann db' = (Return after, db') ∧
            Pizza.ingredient_number <$> after = [0; 0]).
Proof.
  intros db'.
  assert (Hremove : remove_ingredient_to_pizza 1 1 ann db =
    (Return {| status := "completed";
               detail := "Ingredient 1removed from pizza 1" |}, db'))
    by reflexivity.
  destruct (remove_lowers_listed_count db db' 1 1 ann _ sample_consistent Hremove)
    as (l & Hbefore & Hafter).
  pose proof (f_equal fst Hbefore) as Hl. vm_compute in Hl. injection Hl as <-.
  split; [exact sample_consistent|]. split; [exact Hremove|]. split.
  - eexists. split; [exact Hbefore|]. reflexivity.
  - eexists. split; [exact Hafter|]. reflexivity.
Defined.

Lemma added_ingredient_is_protected_witness :
  let db' := set_associations (λ l, l ++ [Association.mk 2 2]) db in
  add_ingredient_to_pizza 2 2 ann db = (Return (Association.mk 2 2), db') ∧
  delete_ingredient 2 ann db' =
    (Raise (Conflict "Cannot delete an ingredient in an active pizza"), db') ∧
  length (CRUD.rows_of_ingredient db 2) = 0%nat ∧
  (_ ← remove_ingredient_to_pizza 2 2 ann; delete_ingredient 2 ann) db' =
    (Return {| status := "completed";
               detail := "Ingredient basil with id 2 deleted" |},
     set_ingredient_table (delete 2) db).
Proof.
  intros db'.
  assert (Hadd : add_ingredient_to_pizza 2 2 ann db = (Return (Association.mk 2 2), db'))
    by reflexivity.
  assert (Hfree : length (CRUD.rows_of_ingredient db 2) = 0%nat) by reflexivity.
  destruct (added_ingredient_is_protected db db' 2 2 ann _ Hadd) as (Hblocked & Hthen).
  destruct (Hthen Hfree) as (row & Hrow & Hrun).
  assert (Hbasil : row = IngredientBase.mk "basil" "herb").
  { assert (Hget : ingredient_table db !! 2 = Some (IngredientBase.mk "basil" "herb"))
      by reflexivity.
    rewrite Hget in Hrow. by injection Hrow. }
  rewrite Hbasil in Hrun.
  repeat split; eauto.
Defined.

Lemma change_pizza_noop_and_idempotent_witness :
  let db' := set_pizzas (insert 2 (PizzaRow.mk "Hawaii" 1100 true 0)) db in
  pizzas db !! 1 = Some margherita ∧
  change_pizza 1 None None None ann db = (Return (CRUD.load_pizza db 1 margherita), db) ∧
  change_pizza 2 None None (Some true) ann db =
    (Return (CRUD.load_pizza db' 2 (PizzaRow.mk "Hawaii" 1100 true 0)), db') ∧
  change_pizza 2 None None (Some true) ann db' =
    (Return (CRUD.load_pizza db' 2 (PizzaRow.mk "Hawaii" 1100 true 0)), db').
Proof.
  intros db'.
  assert (Hrow : pizzas db !! 1 = Some margherita) by reflexivity.
  assert (Hfirst : change_pizza 2 None None (Some true) ann db =
    (Return (CRUD.load_pizza db' 2 (PizzaRow.mk "Hawaii" 1100 true 0)), db'))
    by reflexivity.
  destruct (change_pizza_noop_and_idempotent db 1 ann) as (Hnoop & _).
  destruct (change_pizza_noop_and_idempotent db 2 ann) as (_ & Hagain).
  repeat split; eauto.
Defined.

Lemma show_pizzas_agrees_with_details_witness :
  ∃ pizza_list pizza pizza_detail,
    show_pizzas ann db = (Return pizza_list, db) ∧
    pizza ∈ pizza_list ∧ Pizza.id pizza = 1 ∧
    show_pizza_details 1 db = (Return pizza_detail, db) ∧
    Pizza.ingredient_number pizza = Z.of_nat (length (Pizza.ingredients pizza_detail)) ∧
    Pizza.ingredient_number pizza_detail = 7.
Proof.
  destruct (show_pizzas_agrees_with_details db ann)
    as (pizza_list & Hrun & _ & _ & Hagree).
  assert (Hin : Pizza.mk 1 "Margherita" 900 true 1 [Association.mk 1 1] ∈ pizza_list).
  { pose proof (f_equal fst Hrun) as Hl. vm_compute in Hl. injection Hl as <-.
    right. left. }
  destruct (Hagree _ Hin) as (pizza_detail & Hdetail & _ & _ & _ & Hcount).
  exists pizza_list, (Pizza.mk 1 "Margherita" 900 true 1 [Association.mk 1 1]),
    pizza_detail.
  repeat split; eauto.
  simpl in Hdetail.
  pose proof (f_equal fst Hdetail) as Hd. vm_compute in Hd. by injection Hd as <-.
Defined.

Lemma create_pizza_contract_witness :
  consistent db ∧
  ∃ pizza db',
    create_pizza (PizzaCreate.mk "Funghi" 1000 true) ann db = (Return pizza, db') ∧
    pizzas db !! Pizza.id pizza = None ∧
    show_pizza_details (Pizza.id pizza) db' = (Return pizza, db') ∧
    Pizza.ingredients pizza = [].
Proof.
  split; [exact sample_consistent|].
  destruct (create_pizza_contract db (PizzaCreate.mk "Funghi" 1000 true) ann)
    as (pizza & db' & Hrun & Hfresh & _ & _ & _ & Hget & _ & Hempty).
  exists pizza, db'. repeat split; eauto. exact (Hempty sample_consistent).
Defined.

Lemma create_then_delete_ingredient_witness :
  let db' := set_ingredient_table (insert 3 (IngredientBase.mk "ham" "meat")) db in
  consistent db ∧
  create_ingredient (IngredientBase.mk "ham" "meat") ann db =
    (Return (Ingredient.mk 3 "ham" "meat" []), db') ∧
  delete_ingredient 3 ann db' =
    (Return {| status := "completed";
               detail := "Ingredient ham with id 3 deleted" |}, db).
Proof.
  intros db'.
  assert (Hcreate : create_ingredient (IngredientBase.mk "ham" "meat") ann db =
    (Return (Ingredient.mk 3 "ham" "meat" []), db')) by reflexivity.
  destruct (create_then_delete_ingredient db db' _ ann _ sample_consistent Hcreate)
    as (_ & _ & _ & Hdelete).
  split; [exact sample_consistent|]. split; [exact Hcreate|]. exact Hdelete.
Defined.

End more_instances.
